(** * Voyage: travel document timeline

    A shallow embedding of the logic-bearing parts of the application:

    - [src/components/FileUpload.tsx]: [validateFile], [handleFile];
    - [src/utils/fileParser.ts]: [isFileTypeSupported], [readFileAsText],
      [parseFileWithGPT], [parseDocument], and the image-based parser
      that goes by the same names;
    - [src/app/page.tsx]: [handleFileAdded], [updateDocument],
      [deleteDocument], [parseDocumentData], and [handleFileAdded] of the
      page before parsing was added.

    Time values are integers (milliseconds since the epoch) or NaN, as in
    ECMAScript; the document list is a [list] in display order; what a
    parser asks of its host (a [FileReader] read, a request to the
    service) is a node of an effect tree, so that "no call was made" is a
    statement about the tree. The time zone, [toISOString], [parseISO],
    [JSON.parse] and the API key belong to the host and are parameters. *)

From Stdlib Require Import List String Ascii ZArith Lia Bool Sorted Permutation Floats
  DecimalString.
Import ListNotations.

Local Open Scope string_scope.
Local Open Scope Z_scope.

(** * JavaScript values that occur in the program *)

(** A time value, or the difference of two: an integer number of
    milliseconds, or NaN ([None]). Time values are bounded by 8.64e15 in
    absolute value, so they and their differences keep their sign as
    IEEE doubles. *)
Definition number : Type := option Z.

Definition NaN : number := None.

(** [x - y] on numbers: NaN is absorbing. *)
Definition minus (x y : number) : number :=
  match x, y with
  | Some a, Some b => Some (a - b)
  | _, _ => NaN
  end.

(** What a handler hands back to its caller. *)
Inductive value : Type :=
| Undefined
| Str (s : string).

(** How a call ends: it returns a value or throws. *)
Inductive completion : Type :=
| Returned (v : value)
| Thrown (exn : string).

(** The result of [JSON.parse]. Property order is kept; a repeated key
    is resolved by [JSON.parse] itself, so [get] reads the first binding. *)
#[warnings="-register-all"]
Inductive json : Type :=
| JNull
| JBool (b : bool)
| JNumber (f : float)
| JString (s : string)
| JArray (items : list json)
| JObject (props : list (string * json)).

(** A property read [o.k]: [None] is a TypeError (reading from [null]),
    [Some None] is [undefined]. *)
Definition get (k : string) (o : json) : option (option json) :=
  match o with
  | JNull => None
  | JObject props =>
      Some (option_map snd (find (fun kv => String.eqb (fst kv) k) props))
  | _ => Some None
  end.

(** ToBoolean on a property that was read. *)
Definition truthy (v : option json) : bool :=
  match v with
  | None => false
  | Some JNull => false
  | Some (JBool b) => b
  | Some (JNumber f) => negb (PrimFloat.eqb f 0%float || PrimFloat.is_nan f)
  | Some (JString s) => negb (String.eqb s EmptyString)
  | Some (JArray _) => true
  | Some (JObject _) => true
  end.

(** [Array.prototype.includes] of a list of string literals. *)
Definition includes (l : list string) (v : option json) : bool :=
  match v with
  | Some (JString s) => existsb (String.eqb s) l
  | _ => false
  end.

(** * Dates (ECMAScript time arithmetic) *)

(** A [Date] object holds a time value; NaN is "Invalid Date". *)
Definition Date : Type := number.

Definition msPerDay : Z := 86400000.
Definition msPerHour : Z := 3600000.
Definition msPerMinute : Z := 60000.
Definition msPerSecond : Z := 1000.

Definition Day (t : Z) : Z := t / msPerDay.
Definition HourFromTime (t : Z) : Z := (t / msPerHour) mod 24.
Definition MinFromTime (t : Z) : Z := (t / msPerMinute) mod 60.
Definition SecFromTime (t : Z) : Z := (t / msPerSecond) mod 60.
Definition msFromTime (t : Z) : Z := t mod msPerSecond.

Definition MakeTime (hour min sec ms : Z) : Z :=
  hour * msPerHour + min * msPerMinute + sec * msPerSecond + ms.

Definition MakeDate (day time : Z) : Z := day * msPerDay + time.

Definition TimeClip (t : Z) : Date :=
  if Z.abs t >? 8640000000000000 then NaN else Some t.

Definition getTime (d : Date) : number := d.

Section LocalTime.

(** The offset of local time from UTC, in milliseconds, at a UTC time
    value ([true]) or at a local one ([false]); it belongs to the host. *)
Variable LocalTZA : Z -> bool -> Z.

Definition LocalTime (t : Z) : Z := t + LocalTZA t true.
Definition UTC (t : Z) : Z := t - LocalTZA t false.

(** [Date.prototype.setHours(hour, min, sec, ms)]; the optional
    arguments default to the fields of the date. *)
Definition Date_setHours (d : Date) (hour : Z) (min sec ms : option Z) : Date :=
  match d with
  | None => NaN
  | Some t0 =>
      let t := LocalTime t0 in
      let m := match min with Some m => m | None => MinFromTime t end in
      let s := match sec with Some s => s | None => SecFromTime t end in
      let milli := match ms with Some x => x | None => msFromTime t end in
      TimeClip (UTC (MakeDate (Day t) (MakeTime hour m s milli)))
  end.

(** [Date.prototype.setMinutes(min)]. *)
Definition Date_setMinutes (d : Date) (min : Z) : Date :=
  match d with
  | None => NaN
  | Some t0 =>
      let t := LocalTime t0 in
      TimeClip (UTC (MakeDate (Day t)
                       (MakeTime (HourFromTime t) min (SecFromTime t) (msFromTime t))))
  end.

(** date-fns: each works on a copy of its argument. *)
Definition startOfDay (d : Date) : Date :=
  Date_setHours d 0 (Some 0) (Some 0) (Some 0).

Definition setMinutes (d : Date) (minutes : Z) : Date :=
  Date_setMinutes d minutes.

Definition setHours (d : Date) (hours : Z) : Date :=
  Date_setHours d hours None None None.

(** [Date.prototype.getHours()] and [getMinutes()]: the local fields,
    NaN on an invalid date. *)
Definition Date_getHours (d : Date) : number :=
  match d with
  | Some t => Some (HourFromTime (LocalTime t))
  | None => NaN
  end.

Definition Date_getMinutes (d : Date) : number :=
  match d with
  | Some t => Some (MinFromTime (LocalTime t))
  | None => NaN
  end.

(** [setMinutes] and [setHours] given a number that may be NaN: the
    date becomes invalid. *)
Definition setMinutes_number (d : Date) (minutes : number) : Date :=
  match minutes with
  | Some m => setMinutes d m
  | None => NaN
  end.

Definition setHours_number (d : Date) (hours : number) : Date :=
  match hours with
  | Some h => setHours d h
  | None => NaN
  end.

End LocalTime.

(** * [Array.prototype.sort] *)

Section ArraySort.

Context {A : Type}.
Variable comparefn : A -> A -> number.

(** The comparison the sort performs: a NaN from [comparefn] counts as
    [+0]. *)
Definition SortCompare (x y : A) : Z :=
  match comparefn x y with
  | Some v => v
  | None => 0
  end.

(** [x] stood before every element of [l]; it moves right only past
    elements that compare strictly below it. *)
Fixpoint insert (x : A) (l : list A) : list A :=
  match l with
  | [] => [x]
  | y :: ys => if SortCompare x y >? 0 then y :: insert x ys else x :: l
  end.

(** The sort is stable (ECMAScript 2019). With a consistent comparator
    the result is the same for every sorting algorithm ([sort_unique]
    below); with an inconsistent one the language leaves the order to
    the implementation, and this insertion sort is one such order. *)
Definition sort (l : list A) : list A := fold_right insert [] l.

End ArraySort.

(** * Text *)

(** A number inside a template literal (integers only occur). *)
Definition show (z : Z) : string := NilZero.string_of_int (Z.to_int z).

(** [Math.round(n / d)] for integers [n] and [d > 0]: the nearest
    integer, a half rounding up. *)
Definition Math_round_div (n d : Z) : Z := (2 * n + d) / (2 * d).

Definition MB : Z := 1024 * 1024.

(** * Data model *)

(** The part of a browser [File] the program reads. *)
Record File : Type := mkFile {
  name : string;
  type : string;
  size : Z
}.

Record TravelDocument : Type := mkTravelDocument {
  id : string;
  file : File;
  displayName : string;
  customDateTime : string;
  uploadedAt : Z
}.

(** [Partial<TravelDocument>]: every property may be absent. *)
Record PartialTravelDocument : Type := mkPartial {
  id_opt : option string;
  file_opt : option File;
  displayName_opt : option string;
  customDateTime_opt : option string;
  uploadedAt_opt : option Z
}.

Definition or_else {A : Type} (o : option A) (a : A) : A :=
  match o with
  | Some x => x
  | None => a
  end.

(** The object spread [{ ...doc, ...updates }]. *)
Definition spread (doc : TravelDocument) (updates : PartialTravelDocument)
  : TravelDocument :=
  {| id := or_else (id_opt updates) (id doc);
     file := or_else (file_opt updates) (file doc);
     displayName := or_else (displayName_opt updates) (displayName doc);
     customDateTime := or_else (customDateTime_opt updates) (customDateTime doc);
     uploadedAt := or_else (uploadedAt_opt updates) (uploadedAt doc) |}.

(** The literals [{ displayName: n }] and [{ customDateTime: t }]. *)
Definition just_displayName (n : string) : PartialTravelDocument :=
  mkPartial None None (Some n) None None.

Definition just_customDateTime (t : string) : PartialTravelDocument :=
  mkPartial None None None (Some t) None.

(** * src/components/FileUpload.tsx *)

Module FileUpload.

Record Validation : Type := mkValidation {
  isValid : bool;
  error : option string
}.

Section Props.

(** The props of the component. *)
Variable acceptedFileTypes : list string.
Variable maxFileSize : Z.

(** [acceptedFileTypes[0] !== '*'], negated. *)
Definition acceptsAll : bool :=
  match acceptedFileTypes with
  | first :: _ => String.eqb first "*"
  | [] => false
  end.

Definition sizeExceeded : string :=
  "File size exceeds " ++ show (Math_round_div maxFileSize MB) ++ "MB limit".

Definition unsupportedType (file : File) : string :=
  "File type " ++ type file ++ " is not supported".

Definition validateFile (file : File) : Validation :=
  if size file >? maxFileSize then
    {| isValid := false; error := Some sizeExceeded |}
  else if negb acceptsAll
          && negb (existsb (String.eqb (type file)) acceptedFileTypes) then
    {| isValid := false; error := Some (unsupportedType file) |}
  else
    {| isValid := true; error := None |}.

(** [handleFile], with [S] the state [onFileAdded] works on and
    [alert] the dialog: a rejected file and a throwing callback are
    reported, and the callback runs for an accepted file only. *)
Definition handleFile {S : Type} (alert : string -> S -> S)
    (onFileAdded : File -> S -> completion * S) (file : File) (s : S) : S :=
  let validation := validateFile file in
  if negb (isValid validation) then
    alert ("File validation failed: "
             ++ or_else (error validation) "undefined") s
  else
    match onFileAdded file s with
    | (Returned _, s') => s'
    | (Thrown _, s') =>
        alert "An error occurred while processing the file. Please try again." s'
    end.

End Props.

(** The defaults of the props. *)
Definition defaultAcceptedFileTypes : list string := ["*"].
Definition defaultMaxFileSize : Z := 10 * 1024 * 1024.

End FileUpload.

(** * Promises and effects *)

(** The result both parsers give: [data] and [error] may be absent. *)
Record FileParseResult : Type := mkFileParseResult {
  success : bool;
  data : option json;
  error : option string
}.

(** [{ success: false, error: message }] *)
Definition failure (message : string) : FileParseResult :=
  {| success := false; data := None; error := Some message |}.

(** What is thrown, or what a promise is rejected with: an [Error] with
    its message, or some other value. *)
Inductive exception : Type :=
| Error (message : string)
| NotAnError.

Inductive settled (A : Type) : Type :=
| Fulfilled (a : A)
| Rejected (e : exception).

Arguments Fulfilled {A} a.
Arguments Rejected {A} e.

(** An asynchronous computation of a parser: it ends with a result, or
    asks the host for something and goes on with the answer.
    - [readAsText], [readAsDataURL]: a [FileReader] read; the answer is
      the text, or the base64 part of the data URL ([onload]), or nothing
      ([onerror]);
    - [chatCompletionsCreate]: the request of [fileParser.ts] to the
      completion service, whose prompt is made of the file's name, type
      and size and of the text; the answer is
      [choices[0]?.message?.content], or the call throws;
    - [responsesParse]: the request of the image parser, made of the
      file's type and the image; the answer is [output_parsed], which the
      client library has checked against the schema, or the call throws. *)
Inductive Eff (R : Type) : Type :=
| Ret (r : R)
| readAsText (file : File) (k : option string -> Eff R)
| readAsDataURL (file : File) (k : option string -> Eff R)
| chatCompletionsCreate (file : File) (fileContent : string)
    (k : settled (option string) -> Eff R)
| responsesParse (file : File) (base64Image : string)
    (k : settled (option FileParseResult) -> Eff R).

Arguments Ret {R} r.
Arguments readAsText {R} file k.
Arguments readAsDataURL {R} file k.
Arguments chatCompletionsCreate {R} file fileContent k.
Arguments responsesParse {R} file base64Image k.

Fixpoint bind {A B : Type} (m : Eff A) (f : A -> Eff B) : Eff B :=
  match m with
  | Ret a => f a
  | readAsText file k => readAsText file (fun r => bind (k r) f)
  | readAsDataURL file k => readAsDataURL file (fun r => bind (k r) f)
  | chatCompletionsCreate file c k =>
      chatCompletionsCreate file c (fun r => bind (k r) f)
  | responsesParse file i k => responsesParse file i (fun r => bind (k r) f)
  end.

Notation "x <- m ;; k" := (bind m (fun x => k))
  (at level 61, m at next level, right associativity).

(** The host: what the file holds and what the services answer. *)
Record Host : Type := mkHost {
  contents : File -> option string;
  dataURL : File -> option string;
  service : File -> string -> settled (option string);
  imageService : File -> string -> settled (option FileParseResult)
}.

Inductive Call : Type :=
| FileRead (file : File)
| ServiceRequest (file : File) (sent : string).

(** Running a computation against a host gives its result and the calls
    it made, in order. *)
Fixpoint run {R : Type} (h : Host) (m : Eff R) : R * list Call :=
  match m with
  | Ret r => (r, [])
  | readAsText file k =>
      let (r, calls) := run h (k (contents h file)) in
      (r, FileRead file :: calls)
  | readAsDataURL file k =>
      let (r, calls) := run h (k (dataURL h file)) in
      (r, FileRead file :: calls)
  | chatCompletionsCreate file c k =>
      let (r, calls) := run h (k (service h file c)) in
      (r, ServiceRequest file c :: calls)
  | responsesParse file i k =>
      let (r, calls) := run h (k (imageService h file i)) in
      (r, ServiceRequest file i :: calls)
  end.

Definition isServiceRequest (c : Call) : bool :=
  match c with
  | ServiceRequest _ _ => true
  | FileRead _ => false
  end.

(** * src/utils/fileParser.ts *)

Module fileParser.

Definition keyNotConfigured : string :=
  "OpenAI API key not configured. Please add NEXT_PUBLIC_OPENAI_API_KEY to your environment variables.".
Definition noResponse : string := "No response received from OpenAI".
Definition missingRequiredFields : string :=
  "Invalid response format from OpenAI - missing required fields".
Definition invalidConfidence : string := "Invalid confidence value from OpenAI".
Definition failedToParse : string := "Failed to parse OpenAI response".

Definition unsupportedForParsing (file : File) : string :=
  "File type " ++ type file
    ++ " is not supported for parsing. Supported types: text, PDF, Word documents, CSV, JSON".

Definition tooLarge (file : File) : string :=
  "File is too large for AI parsing (" ++ show (Math_round_div (size file) MB)
    ++ "MB). Maximum size for parsing is 10MB.".

(** The body of the inner [try] after [JSON.parse]; [None] is the
    TypeError of a property read from [null]. *)
Definition validate (parsedData : json) : option FileParseResult :=
  match get "documentName" parsedData,
        get "documentType" parsedData,
        get "confidence" parsedData with
  | Some documentName, Some documentType, Some confidence =>
      if negb (truthy documentName) || negb (truthy documentType)
         || negb (truthy confidence) then
        Some (failure missingRequiredFields)
      else if negb (includes ["high"; "medium"; "low"] confidence) then
        Some (failure invalidConfidence)
      else
        Some {| success := true; data := Some parsedData; error := None |}
  | _, _, _ => None
  end.

Definition maxLength : Z := 50000.

(** [readFileAsText]: the text, cut to [maxLength] characters. *)
Definition readFileAsText (file : File) : Eff (settled string) :=
  readAsText file (fun result =>
    match result with
    | Some content =>
        if Z.of_nat (String.length content) >? maxLength then
          Ret (Fulfilled (substring 0 (Z.to_nat maxLength) content
                            ++ String (ascii_of_nat 10) (String (ascii_of_nat 10)
                                 "[Content truncated due to length]")))
        else Ret (Fulfilled content)
    | None => Ret (Rejected (Error "Failed to read file"))
    end).

Definition supportedTypes : list string :=
  [ "text/plain";
    "application/pdf";
    "application/msword";
    "application/vnd.openxmlformats-officedocument.wordprocessingml.document";
    "text/csv";
    "application/json" ].

Definition isFileTypeSupported (file : File) : bool :=
  existsb (String.eqb (type file)) supportedTypes.

Definition maxSizeForParsing : Z := 10 * 1024 * 1024.

Section Environment.

(** [process.env.NEXT_PUBLIC_OPENAI_API_KEY], fixed when the
    application is built. *)
Variable NEXT_PUBLIC_OPENAI_API_KEY : option string.

(** [JSON.parse]; [None] is its SyntaxError. *)
Variable JSON_parse : string -> option json.

Definition keyAvailable : bool :=
  match NEXT_PUBLIC_OPENAI_API_KEY with
  | Some k => negb (String.eqb k EmptyString)
  | None => false
  end.

(** What becomes of the text the service answered with. *)
Definition parseResponse (response : string) : FileParseResult :=
  match JSON_parse response with
  | Some parsedData =>
      match validate parsedData with
      | Some result => result
      | None => failure failedToParse
      end
  | None => failure failedToParse
  end.

Definition parseFileWithGPT (file : File) (fileContent : string)
  : Eff FileParseResult :=
  if negb keyAvailable then Ret (failure keyNotConfigured)
  else
    chatCompletionsCreate file fileContent (fun completion =>
      match completion with
      | Fulfilled (Some response) =>
          if String.eqb response EmptyString then Ret (failure noResponse)
          else Ret (parseResponse response)
      | Fulfilled None => Ret (failure noResponse)
      | Rejected (Error message) => Ret (failure message)
      | Rejected NotAnError => Ret (failure "Unknown error occurred")
      end).

Definition parseDocument (file : File) : Eff FileParseResult :=
  if negb (isFileTypeSupported file) then
    Ret (failure (unsupportedForParsing file))
  else if size file >? maxSizeForParsing then
    Ret (failure (tooLarge file))
  else
    fileContent <- readFileAsText file ;;
    match fileContent with
    | Fulfilled fileContent => parseFileWithGPT file fileContent
    | Rejected (Error message) => Ret (failure message)
    | Rejected NotAnError => Ret (failure "Failed to parse document")
    end.

End Environment.

End fileParser.

(** * The image parser (the second [parseFileWithGPT]) *)

Module imageParser.

Definition unsupported (file : File) : string :=
  "File type " ++ type file
    ++ " is not supported. Supported: PDF, Word, TXT, CSV, JSON".

Definition tooLarge (file : File) : string :=
  "File too large (" ++ show (Math_round_div (size file) MB) ++ "MB). Max is 10MB.".

Definition keyNotConfigured : string :=
  "OpenAI API key not configured. Please add NEXT_PUBLIC_OPENAI_API_KEY to your env.".

Definition supportedTypes : list string :=
  [ "application/pdf";
    "image/jpeg";
    "image/png";
    "image/jpg";
    "application/msword";
    "application/vnd.openxmlformats-officedocument.wordprocessingml.document" ].

Definition isFileTypeSupported (file : File) : bool :=
  existsb (String.eqb (type file)) supportedTypes.

Definition maxSize : Z := 10 * 1024 * 1024.

Section Environment.

Variable NEXT_PUBLIC_OPENAI_API_KEY : option string.

(** [err?.message || "Unknown error occurred"] *)
Definition messageOf (e : exception) : string :=
  match e with
  | Error message =>
      if String.eqb message EmptyString then "Unknown error occurred" else message
  | NotAnError => "Unknown error occurred"
  end.

Definition parseFileWithGPT (file : File) : Eff FileParseResult :=
  if negb (isFileTypeSupported file) then Ret (failure (unsupported file))
  else if size file >? maxSize then Ret (failure (tooLarge file))
  else if negb (fileParser.keyAvailable NEXT_PUBLIC_OPENAI_API_KEY) then
    Ret (failure keyNotConfigured)
  else
    readAsDataURL file (fun read =>
      match read with
      | Some base64Image =>
          responsesParse file base64Image (fun res =>
            match res with
            | Fulfilled (Some parsed) => Ret parsed
            | Fulfilled None =>
                Ret (failure "No structured output returned from model.")
            | Rejected e => Ret (failure (messageOf e))
            end)
      | None => Ret (failure (messageOf NotAnError))
      end).

Definition parseDocument (file : File) : Eff FileParseResult :=
  parseFileWithGPT file.

End Environment.

End imageParser.

(** * src/app/page.tsx *)

Module page.

(** The state of [Home] that the handlers below read or write, and the
    dialogs shown so far. *)
Record State : Type := mkState {
  documents : list TravelDocument;
  parsingId : option string;
  alerts : list string
}.

Definition setDocuments (f : list TravelDocument -> list TravelDocument)
    (s : State) : State :=
  {| documents := f (documents s);
     parsingId := parsingId s;
     alerts := alerts s |}.

Definition setParsingId (p : option string) (s : State) : State :=
  {| documents := documents s; parsingId := p; alerts := alerts s |}.

Definition alert (message : string) (s : State) : State :=
  {| documents := documents s;
     parsingId := parsingId s;
     alerts := (alerts s ++ [message])%list |}.

(** The props [Home] gives to [FileUpload]. *)
Definition acceptedFileTypes : list string :=
  [ "application/pdf";
    "image/jpeg";
    "image/png";
    "image/jpg";
    "application/msword";
    "application/vnd.openxmlformats-officedocument.wordprocessingml.document" ].

Definition maxFileSize : Z := 25 * 1024 * 1024.

Section Host.

(** The host's time zone, [Date.prototype.toISOString] (on a valid
    date) and date-fns' [parseISO]. *)
Variable LocalTZA : Z -> bool -> Z.
Variable toISOString : Z -> string.
Variable parseISO : string -> Date.

(** The comparator of both sorts. *)
Definition byCustomDateTime (a b : TravelDocument) : number :=
  minus (getTime (parseISO (customDateTime a)))
        (getTime (parseISO (customDateTime b))).

(** [handleFileAdded]; [documentId] is what [crypto.randomUUID()]
    gave, [today] and [now] what the two [new Date()] gave.
    [toISOString] throws on an invalid date. *)
Definition todayAt10AM (today : Z) : Date :=
  setHours LocalTZA (setMinutes LocalTZA (startOfDay LocalTZA (Some today)) 0) 10.

Definition newDocument (documentId : string) (at10 now : Z) (file : File)
  : TravelDocument :=
  {| id := documentId;
     file := file;
     displayName := name file;
     customDateTime := toISOString at10;
     uploadedAt := now |}.

Definition handleFileAdded (documentId : string) (today now : Z) (file : File)
    (prev : list TravelDocument) : completion * list TravelDocument :=
  match todayAt10AM today with
  | Some at10 =>
      (Returned Undefined,
       sort byCustomDateTime (prev ++ [newDocument documentId at10 now file]))
  | None => (Thrown "RangeError: Invalid time value", prev)
  end.

Definition updateDocument (id0 : string) (updates : PartialTravelDocument)
    (prev : list TravelDocument) : completion * list TravelDocument :=
  (Returned Undefined,
   sort byCustomDateTime
     (map (fun doc => if String.eqb (id doc) id0 then spread doc updates else doc)
        prev)).

Definition deleteDocument (id0 : string) (prev : list TravelDocument)
  : completion * list TravelDocument :=
  (Returned Undefined, filter (fun doc => negb (String.eqb (id doc) id0)) prev).

(** The [onChange] of the name input of a record. *)
Definition handleNameChange (doc : TravelDocument) (value : string)
    (prev : list TravelDocument) : completion * list TravelDocument :=
  updateDocument (id doc) (just_displayName value) prev.

(** The [onChange] of the date input of a record: the chosen day at the
    hour and minute the record has; [toISOString] throws when either
    date is invalid. *)
Definition handleDateChange (doc : TravelDocument) (value : string)
    (prev : list TravelDocument) : completion * list TravelDocument :=
  let currentDateTime := parseISO (customDateTime doc) in
  let newDate := parseISO value in
  let updatedDateTime :=
    setHours_number LocalTZA
      (setMinutes_number LocalTZA newDate (Date_getMinutes LocalTZA currentDateTime))
      (Date_getHours LocalTZA currentDateTime) in
  match updatedDateTime with
  | Some t => updateDocument (id doc) (just_customDateTime (toISOString t)) prev
  | None => (Thrown "RangeError: Invalid time value", prev)
  end.

(** The typed view [result.data] has in [parseDocumentData]: the
    updates it builds. The payload was cast, not checked, so a name or
    a truthy timestamp that is not a string has no place in a
    [TravelDocument]; [None] marks that case. *)
Definition updatesOf (data : json) : option PartialTravelDocument :=
  match get "documentName" data, get "timestamp" data with
  | Some (Some (JString documentName)), Some timestamp =>
      if truthy timestamp then
        match timestamp with
        | Some (JString t) =>
            Some (mkPartial None None (Some documentName) (Some t) None)
        | _ => None
        end
      else Some (just_displayName documentName)
  | _, _ => None
  end.

(** [parseDocumentData] from the point where [parseDocument] has
    settled; [None] where [updatesOf] has no answer. *)
Definition parseDocumentData_settled (doc : TravelDocument)
    (result : settled FileParseResult) (s : State) : option State :=
  match result with
  | Fulfilled result =>
      match data result with
      | Some data =>
          if success result && truthy (Some data) then
            match updatesOf data with
            | Some updates =>
                Some (setParsingId None
                        (setDocuments
                           (fun prev => snd (updateDocument (id doc) updates prev)) s))
            | None => None
            end
          else
            Some (setParsingId None
                    (alert ("Failed to parse document: "
                              ++ or_else (error result) "undefined") s))
      | None =>
          Some (setParsingId None
                  (alert ("Failed to parse document: "
                            ++ or_else (error result) "undefined") s))
      end
  | Rejected _ =>
      Some (setParsingId None
              (alert "An error occurred while parsing the document" s))
  end.

(** The whole of [parseDocumentData] when nothing else happens while
    the parse is under way. *)
Definition parseDocumentData (apiKey : option string)
    (JSON_parse : string -> option json) (h : Host) (doc : TravelDocument)
    (s : State) : option State :=
  let s1 := setParsingId (Some (id doc)) s in
  let (result, _) := run h (fileParser.parseDocument apiKey JSON_parse (file doc)) in
  parseDocumentData_settled doc (Fulfilled result) s1.

(** ** The Document Store, as the user drives it *)

(** [add]: a file handed to [FileUpload], which validates it and
    calls [handleFileAdded]. *)
Definition add (documentId : string) (today now : Z) (file : File)
    (s : State) : State :=
  FileUpload.handleFile acceptedFileTypes maxFileSize alert
    (fun file s =>
       let (c, docs) := handleFileAdded documentId today now file (documents s) in
       (c, setDocuments (fun _ => docs) s))
    file s.

Definition update (id0 : string) (updates : PartialTravelDocument)
    (s : State) : completion * State :=
  (fst (updateDocument id0 updates (documents s)),
   setDocuments (fun prev => snd (updateDocument id0 updates prev)) s).

Definition remove (id0 : string) (s : State) : completion * State :=
  (fst (deleteDocument id0 (documents s)),
   setDocuments (fun prev => snd (deleteDocument id0 prev)) s).

(** [list]: what the timeline renders. *)
Definition list_ (s : State) : list TravelDocument := documents s.

Inductive operation : Type :=
| Add (documentId : string) (today now : Z) (file : File)
| Update (id0 : string) (updates : PartialTravelDocument)
| Remove (id0 : string).

Definition apply (s : State) (o : operation) : State :=
  match o with
  | Add documentId today now file => add documentId today now file s
  | Update id0 updates => snd (update id0 updates s)
  | Remove id0 => snd (remove id0 s)
  end.

(** The states after each operation of a sequence, in order. *)
Fixpoint history (s : State) (ops : list operation) : list State :=
  match ops with
  | [] => []
  | o :: ops' => apply s o :: history (apply s o) ops'
  end.

Definition execute (s : State) (ops : list operation) : State :=
  fold_left apply ops s.

End Host.

Definition initial : State :=
  {| documents := []; parsingId := None; alerts := [] |}.

End page.

(** * The page before parsing was added *)

Module earlierPage.

Section Host.

(** [Date.prototype.toISOString] and [new Date(string)]. *)
Variable toISOString : Z -> string.
Variable newDate : string -> Date.

Definition byCustomDateTime (a b : TravelDocument) : number :=
  minus (getTime (newDate (customDateTime a)))
        (getTime (newDate (customDateTime b))).

(** [handleFileAdded]: the default is the moment of the upload. *)
Definition handleFileAdded (documentId : string) (today now : Z) (file : File)
    (prev : list TravelDocument) : completion * list TravelDocument :=
  (Returned Undefined,
   sort byCustomDateTime
     (prev ++ [ {| id := documentId;
                   file := file;
                   displayName := name file;
                   customDateTime := toISOString today;
                   uploadedAt := now |} ])).

End Host.

End earlierPage.

(** * A host to run the program on *)

(** The calendar of [Date.prototype.toISOString] and a reader for the
    strings it writes: the instance the examples below are run on. *)
Module Iso8601.

(** Year, month (1 to 12) and day of the month of a day number. *)
Definition civil (day : Z) : Z * Z * Z :=
  let z := day + 719468 in
  let era := z / 146097 in
  let doe := z - era * 146097 in
  let yoe := (doe - doe / 1460 + doe / 36524 - doe / 146096) / 365 in
  let doy := doe - (365 * yoe + yoe / 4 - yoe / 100) in
  let mp := (5 * doy + 2) / 153 in
  let d := doy - (153 * mp + 2) / 5 + 1 in
  let m := if mp <? 10 then mp + 3 else mp - 9 in
  (yoe + era * 400 + (if m <=? 2 then 1 else 0), m, d).

(** The day number of a year, month and day. *)
Definition dayNumber (y m d : Z) : Z :=
  let y' := y - (if m <=? 2 then 1 else 0) in
  let era := y' / 400 in
  let yoe := y' - era * 400 in
  let doy := (153 * (if m >? 2 then m - 3 else m + 9) + 2) / 5 + d - 1 in
  let doe := yoe * 365 + yoe / 4 - yoe / 100 + doy in
  era * 146097 + doe - 719468.

(** [n] written with at least [width] digits. *)
Fixpoint zeros (n : nat) : string :=
  match n with
  | O => EmptyString
  | S n' => String "0" (zeros n')
  end.

Definition pad (width : nat) (n : Z) : string :=
  let digits := show n in
  zeros (width - String.length digits) ++ digits.

Definition toISOString (t : Z) : string :=
  let '(y, m, d) := civil (Day t) in
  let year :=
    if (0 <=? y) && (y <=? 9999) then pad 4 y
    else if y <? 0 then "-" ++ pad 6 (- y)
    else "+" ++ pad 6 y in
  year ++ "-" ++ pad 2 m ++ "-" ++ pad 2 d
    ++ "T" ++ pad 2 (HourFromTime t) ++ ":" ++ pad 2 (MinFromTime t)
    ++ ":" ++ pad 2 (SecFromTime t) ++ "." ++ pad 3 (msFromTime t) ++ "Z".

Definition digit (c : ascii) : option Z :=
  let n := Z.of_nat (nat_of_ascii c) in
  if (48 <=? n) && (n <=? 57) then Some (n - 48) else None.

Fixpoint numeral (acc : Z) (l : list ascii) : option Z :=
  match l with
  | [] => Some acc
  | c :: l' =>
      match digit c with
      | Some d => numeral (10 * acc + d) l'
      | None => None
      end
  end.

(** The fields of [YYYY-MM-DDTHH:mm:ss.sssZ], read as a time value. *)
Definition fields (s : string) : option Z :=
  match list_ascii_of_string s with
  | [y1; y2; y3; y4; _; m1; m2; _; d1; d2; _; h1; h2; _; i1; i2; _; s1; s2; _;
     f1; f2; f3; _] =>
      match numeral 0 [y1; y2; y3; y4], numeral 0 [m1; m2], numeral 0 [d1; d2],
            numeral 0 [h1; h2], numeral 0 [i1; i2], numeral 0 [s1; s2],
            numeral 0 [f1; f2; f3] with
      | Some y, Some m, Some d, Some h, Some i, Some sec, Some ms =>
          Some (MakeDate (dayNumber y m d) (MakeTime h i sec ms))
      | _, _, _, _, _, _, _ => None
      end
  | _ => None
  end.

(** [parseISO] on the complete UTC form: a string is a date when it is
    the one [toISOString] writes for the time value read from it;
    everything else is an invalid date here. *)
Definition parseISO (s : string) : Date :=
  match fields s with
  | Some t => if String.eqb (toISOString t) s then TimeClip t else NaN
  | None => NaN
  end.

(** India Standard Time: five and a half hours ahead, all year. *)
Definition LocalTZA (t : Z) (isUTC : bool) : Z := 19800000.

End Iso8601.

(** Files, a clock reading, a session and an answer of the service. *)
Module Sample.

Definition ticket : File := mkFile "ticket.pdf" "application/pdf" (2 * MB).
Definition visa : File := mkFile "visa.png" "image/png" 300000.
Definition notes : File := mkFile "notes.txt" "text/plain" (11 * MB).

(** 2025-01-15T08:23:45.678Z, which is 13:53 in India. *)
Definition morning : Z := 1736929425678.

Definition uploads : list page.operation :=
  [ page.Add "id-1" morning morning ticket;
    page.Add "id-2" (morning + 60000) (morning + 60001) visa ].

Definition session : list page.operation :=
  (uploads
     ++ [ page.Update "id-1" (just_customDateTime "2024-12-25T09:00:00.000Z");
          page.Update "id-2" (just_displayName "Visa for Singapore");
          page.Remove "id-1" ])%list.

Definition record : TravelDocument :=
  {| id := "id-1";
     file := ticket;
     displayName := "ticket.pdf";
     customDateTime := "2025-01-15T04:30:00.000Z";
     uploadedAt := morning |}.

Definition one : page.State :=
  {| page.documents := [record]; page.parsingId := None; page.alerts := [] |}.

(** [{"documentName":"Visa","confidence":"high"}]: no [documentType]. *)
Definition quote : string := String (ascii_of_nat 34) EmptyString.

Definition answer : string :=
  "{" ++ quote ++ "documentName" ++ quote ++ ":" ++ quote ++ "Visa" ++ quote
    ++ "," ++ quote ++ "confidence" ++ quote ++ ":" ++ quote ++ "high" ++ quote
    ++ "}".

Definition payload : json :=
  JObject [("documentName", JString "Visa"); ("confidence", JString "high")].

(** A [JSON.parse] that knows this one text. *)
Definition JSON_parse (text : string) : option json :=
  if String.eqb text answer then Some payload else None.

(** A host whose files read as a line of text and whose service gives
    [answer]. *)
Definition host : Host :=
  {| contents := fun _ => Some "Visa, Singapore";
     dataURL := fun _ => None;
     service := fun _ _ => Fulfilled (Some answer);
     imageService := fun _ _ => Fulfilled None |}.

(** A complete answer, and a host whose service gives it. *)
Definition complete : string :=
  "{" ++ quote ++ "documentName" ++ quote ++ ":" ++ quote ++ "Visa" ++ quote
    ++ "," ++ quote ++ "documentType" ++ quote ++ ":" ++ quote ++ "Visa" ++ quote
    ++ "," ++ quote ++ "timestamp" ++ quote ++ ":" ++ quote
    ++ "2024-12-25T09:00:00.000Z" ++ quote
    ++ "," ++ quote ++ "confidence" ++ quote ++ ":" ++ quote ++ "high" ++ quote
    ++ "}".

Definition completePayload : json :=
  JObject [ ("documentName", JString "Visa");
            ("documentType", JString "Visa");
            ("timestamp", JString "2024-12-25T09:00:00.000Z");
            ("confidence", JString "high") ].

Definition JSON_parse2 (text : string) : option json :=
  if String.eqb text complete then Some completePayload else JSON_parse text.

Definition host2 : Host :=
  {| contents := fun _ => Some "Visa, Singapore";
     dataURL := fun _ => Some "aGVsbG8=";
     service := fun _ _ => Fulfilled (Some complete);
     imageService := fun _ _ => Fulfilled None |}.

(** A second record, a day later, and a store of both. *)
Definition later : TravelDocument :=
  {| id := "id-2";
     file := visa;
     displayName := "visa.png";
     customDateTime := "2025-01-16T04:30:00.000Z";
     uploadedAt := morning + 1 |}.

Definition two : page.State :=
  {| page.documents := [record; later]; page.parsingId := None; page.alerts := [] |}.

(** The same two records the wrong way round. *)
Definition disordered : page.State :=
  {| page.documents := [later; record]; page.parsingId := None; page.alerts := [] |}.

(** And with a third record between them. *)
Definition third : TravelDocument :=
  {| id := "id-3";
     file := ticket;
     displayName := "return.pdf";
     customDateTime := "2025-01-20T04:30:00.000Z";
     uploadedAt := morning + 2 |}.

Definition disordered3 : page.State :=
  {| page.documents := [later; third; record];
     page.parsingId := Some "id-3";
     page.alerts := [] |}.

(** Three uploads on one day, the second a hotel booking, and an answer
    of the service for it whose timestamp is no date:
    [{"documentName":"Hotel in Paris","documentType":"Hotel Booking",
      "timestamp":"TBD","confidence":"medium"}]. *)
Definition booking : File := mkFile "booking.pdf" "application/pdf" 400000.

Definition threeUploads : list page.operation :=
  [ page.Add "id-1" morning morning ticket;
    page.Add "id-2" (morning + 60000) (morning + 60001) booking;
    page.Add "id-3" (morning + 120000) (morning + 120001) visa ].

Definition second : TravelDocument :=
  {| id := "id-2";
     file := booking;
     displayName := "booking.pdf";
     customDateTime := "2025-01-15T04:30:00.000Z";
     uploadedAt := morning + 60001 |}.

Definition undated : string :=
  "{" ++ quote ++ "documentName" ++ quote ++ ":" ++ quote ++ "Hotel in Paris" ++ quote
    ++ "," ++ quote ++ "documentType" ++ quote ++ ":" ++ quote ++ "Hotel Booking"
    ++ quote
    ++ "," ++ quote ++ "timestamp" ++ quote ++ ":" ++ quote ++ "TBD" ++ quote
    ++ "," ++ quote ++ "confidence" ++ quote ++ ":" ++ quote ++ "medium" ++ quote
    ++ "}".

Definition undatedPayload : json :=
  JObject [ ("documentName", JString "Hotel in Paris");
            ("documentType", JString "Hotel Booking");
            ("timestamp", JString "TBD");
            ("confidence", JString "medium") ].

Definition JSON_parse3 (text : string) : option json :=
  if String.eqb text undated then Some undatedPayload else None.

Definition host3 : Host :=
  {| contents := fun _ => Some "Hotel Lutetia, Paris. Dates to be confirmed.";
     dataURL := fun _ => None;
     service := fun _ _ => Fulfilled (Some undated);
     imageService := fun _ _ => Fulfilled None |}.

End Sample.

(** * Vocabulary of the statements *)

Section Order.

Context {A : Type}.
Variable key : A -> number.

(** The comparator [(a, b) => key(a) - key(b)]. *)
Definition byKey (x y : A) : number := minus (key x) (key y).

Definition dated (x : A) : Prop := key x <> NaN.

Definition notAfter (x y : A) : Prop :=
  match key x, key y with
  | Some a, Some b => a <= b
  | _, _ => False
  end.

(** Non-decreasing order of the keys. *)
Definition ascending (l : list A) : Prop := Sorted notAfter l.

Definition at_time (t : Z) (x : A) : bool :=
  match key x with
  | Some a => a =? t
  | None => false
  end.

(** [l'] is what a full stable re-sort makes of [l]: the same records,
    in non-decreasing order, those of one key in the order they have
    in [l]. *)
Definition resorted (l l' : list A) : Prop :=
  Permutation l l' /\ ascending l'
  /\ forall t, filter (at_time t) l' = filter (at_time t) l.

End Order.

(** The key of the timeline: the time value [parseISO] reads. *)
Definition scheduledAt (parseISO : string -> Date) (doc : TravelDocument) : number :=
  getTime (parseISO (customDateTime doc)).

(** The invariant of the store: every record has a date, and the list is
    in non-decreasing order of them. *)
Definition inOrder (parseISO : string -> Date) (docs : list TravelDocument) : Prop :=
  Forall (dated (scheduledAt parseISO)) docs /\ ascending (scheduledAt parseISO) docs.

Definition isDate (d : Date) : bool :=
  match d with
  | Some _ => true
  | None => false
  end.

Section StoreVocabulary.

Variable LocalTZA : Z -> bool -> Z.
Variable toISOString : Z -> string.
Variable parseISO : string -> Date.

(** An operation brings only dates into the store: the default of
    [Add] is read back as a date, the timestamp of [Update] is one. *)
Definition wellTimed (o : page.operation) : bool :=
  match o with
  | page.Add _ today _ _ =>
      match page.todayAt10AM LocalTZA today with
      | Some at10 => isDate (parseISO (toISOString at10))
      | None => true
      end
  | page.Update _ updates =>
      match customDateTime_opt updates with
      | Some t => isDate (parseISO t)
      | None => true
      end
  | page.Remove _ => true
  end.


(** The records a sequence of operations creates, in the order of
    their creation. *)
Definition created (o : page.operation) : list TravelDocument :=
  match o with
  | page.Add documentId today now file =>
      if FileUpload.isValid
           (FileUpload.validateFile page.acceptedFileTypes page.maxFileSize file)
      then
        match page.todayAt10AM LocalTZA today with
        | Some at10 => [page.newDocument toISOString documentId at10 now file]
        | None => []
        end
      else []
  | _ => []
  end.

(** The collection right after the change an operation makes, before
    it is put in order again. *)
Definition changed (o : page.operation) (docs : list TravelDocument)
  : list TravelDocument :=
  match o with
  | page.Add _ _ _ _ => (docs ++ created o)%list
  | page.Update id0 updates =>
      map (fun doc => if String.eqb (id doc) id0 then spread doc updates else doc)
        docs
  | page.Remove id0 => filter (fun doc => negb (String.eqb (id doc) id0)) docs
  end.

(** Local midnight and local ten o'clock of the day of [today]. *)
Definition midnightOf (today : Z) : Z := MakeDate (Day (LocalTime LocalTZA today)) 0.
Definition tenOf (today : Z) : Z :=
  MakeDate (Day (LocalTime LocalTZA today)) (MakeTime 10 0 0 0).

(** A local time that exists on the host's clock and is within the
    range of [Date]. *)
Definition onTheClock (local : Z) : Prop :=
  LocalTime LocalTZA (UTC LocalTZA local) = local
  /\ Z.abs (UTC LocalTZA local) <= 8640000000000000.

End StoreVocabulary.

(** The id an operation generates, and whether it leaves ids alone (the
    page's own updates carry a name or a timestamp only). *)
Definition generated (o : page.operation) : list string :=
  match o with
  | page.Add documentId _ _ _ => [documentId]
  | _ => []
  end.

Definition keepsId (o : page.operation) : bool :=
  match o with
  | page.Update _ updates =>
      match id_opt updates with
      | Some _ => false
      | None => true
      end
  | _ => true
  end.

(** A payload has no value under a key. *)
Definition lacks (k : string) (payload : json) : Prop :=
  forall v, get k payload <> Some (Some v).

(** The confidence of a payload is one of the three levels. *)
Definition confidenceKnown (payload : json) : Prop :=
  exists level, get "confidence" payload = Some (Some (JString level))
                /\ In level ["high"; "medium"; "low"].

(** What the check of a payload comes to when it does not succeed: the
    TypeError of a read from [null], or one of the two failures. *)
Definition validate_cases (payload : json) : Prop :=
  fileParser.validate payload = None
  \/ fileParser.validate payload = Some (failure fileParser.missingRequiredFields)
  \/ fileParser.validate payload = Some (failure fileParser.invalidConfidence).

(** A result that reports a failure and carries no data. *)
Definition isFailure (result : FileParseResult) : Prop :=
  success result = false /\ data result = None.

(** A call that signals an error to its caller. *)
Definition signalsError (c : completion) : Prop := exists exn, c = Thrown exn.

(** The text [readFileAsText] resolves with. *)
Definition cut (content : string) : string :=
  if Z.of_nat (String.length content) >? fileParser.maxLength then
    substring 0 (Z.to_nat fileParser.maxLength) content
      ++ String (ascii_of_nat 10) (String (ascii_of_nat 10)
           "[Content truncated due to length]")
  else content.

(** What [parseFileWithGPT] makes of the answer of the service. *)
Definition answered (JSON_parse : string -> option json)
    (completion : settled (option string)) : FileParseResult :=
  match completion with
  | Fulfilled (Some response) =>
      if String.eqb response EmptyString then failure fileParser.noResponse
      else fileParser.parseResponse JSON_parse response
  | Fulfilled None => failure fileParser.noResponse
  | Rejected (Error message) => failure message
  | Rejected NotAnError => failure "Unknown error occurred"
  end.

(** A payload with a name, a type and one of the three confidences. *)
Definition truthyAt (k : string) (payload : json) : Prop :=
  exists v, get k payload = Some v /\ truthy v = true.

Definition wellFormed (payload : json) : Prop :=
  truthyAt "documentName" payload /\ truthyAt "documentType" payload
  /\ confidenceKnown payload.

(** * Facts about the sort *)

Section SortFacts.

Context {A : Type}.
Variable key : A -> number.

Local Abbreviation insert' := (insert (byKey key)).
Local Abbreviation sort' := (sort (byKey key)).

Lemma SortCompare_dated (x y : A) (a b : Z) :
  key x = Some a -> key y = Some b -> SortCompare (byKey key) x y = a - b.
Proof.
  intros Hx Hy. unfold SortCompare, byKey. rewrite Hx, Hy. reflexivity.
Qed.

Lemma SortCompare_positive (x y : A) :
  SortCompare (byKey key) x y > 0 ->
  exists a b, key x = Some a /\ key y = Some b /\ b < a.
Proof.
  unfold SortCompare, byKey.
  destruct (key x) as [a|], (key y) as [b|]; simpl; try lia.
  intros H. exists a, b. repeat split; lia.
Qed.

Lemma insert_permutation (x : A) (l : list A) :
  Permutation (x :: l) (insert' x l).
Proof.
  induction l as [|y ys IH]; simpl.
  - apply Permutation_refl.
  - destruct (SortCompare (byKey key) x y >? 0).
    + eapply perm_trans; [apply perm_swap|]. apply perm_skip, IH.
    + apply Permutation_refl.
Qed.

Lemma sort_permutation (l : list A) : Permutation l (sort' l).
Proof.
  induction l as [|x l IH]; simpl.
  - apply perm_nil.
  - eapply perm_trans; [apply perm_skip, IH|]. apply insert_permutation.
Qed.

Lemma notAfter_trans (x y z : A) :
  notAfter key x y -> notAfter key y z -> notAfter key x z.
Proof.
  unfold notAfter.
  destruct (key x), (key y), (key z); try tauto; lia.
Qed.

Lemma insert_HdRel (w x : A) (l : list A) :
  notAfter key w x -> HdRel (notAfter key) w l ->
  HdRel (notAfter key) w (insert' x l).
Proof.
  intros Hwx Hl. destruct l as [|y ys]; simpl.
  - constructor. exact Hwx.
  - destruct (SortCompare (byKey key) x y >? 0); constructor.
    + inversion Hl; assumption.
    + exact Hwx.
Qed.

Lemma insert_ascending (x : A) (l : list A) :
  dated key x -> Forall (dated key) l -> ascending key l ->
  ascending key (insert' x l).
Proof.
  intros Hx Hd Hs. unfold ascending in *.
  induction Hs as [|y ys Hys IH Hhd]; simpl.
  - repeat constructor.
  - inversion Hd as [|? ? Hy Hd']; subst.
    destruct (SortCompare (byKey key) x y >? 0) eqn:Hc.
    + constructor; [apply IH; assumption|].
      apply insert_HdRel; [|assumption].
      apply Z.gtb_lt in Hc.
      destruct (SortCompare_positive x y) as (a & b & Ha & Hb & Hlt); [lia|].
      unfold notAfter. rewrite Ha, Hb. lia.
    + constructor; [constructor; assumption|]. constructor.
      unfold dated, NaN in Hx, Hy.
      destruct (key x) as [a|] eqn:Ha; [|congruence].
      destruct (key y) as [b|] eqn:Hb; [|congruence].
      rewrite (SortCompare_dated x y a b Ha Hb) in Hc.
      unfold notAfter. rewrite Ha, Hb.
      destruct (Z.gtb_spec (a - b) 0); [discriminate|lia].
Qed.

Lemma sort_dated (l : list A) :
  Forall (dated key) l -> Forall (dated key) (sort' l).
Proof.
  intros H. eapply Permutation_Forall; [apply sort_permutation|exact H].
Qed.

Lemma sort_ascending (l : list A) :
  Forall (dated key) l -> ascending key (sort' l).
Proof.
  induction l as [|x l IH]; intros H; simpl.
  - constructor.
  - inversion H; subst.
    apply insert_ascending; auto using sort_dated.
Qed.

Lemma insert_stable (t : Z) (x : A) (l : list A) :
  filter (at_time key t) (insert' x l) = filter (at_time key t) (x :: l).
Proof.
  induction l as [|y ys IH]; [reflexivity|].
  simpl insert.
  destruct (SortCompare (byKey key) x y >? 0) eqn:Hc; [|reflexivity].
  apply Z.gtb_lt in Hc.
  destruct (SortCompare_positive x y) as (a & b & Ha & Hb & Hlt); [lia|].
  simpl filter in *. rewrite IH.
  unfold at_time. rewrite Ha, Hb.
  destruct (Z.eqb_spec a t), (Z.eqb_spec b t); try reflexivity; lia.
Qed.

Lemma sort_stable (t : Z) (l : list A) :
  filter (at_time key t) (sort' l) = filter (at_time key t) l.
Proof.
  induction l as [|x l IH]; [reflexivity|].
  simpl sort. rewrite insert_stable. simpl. rewrite IH. reflexivity.
Qed.

Lemma sort_resorted (l : list A) :
  Forall (dated key) l -> resorted key l (sort' l).
Proof.
  intros H. split; [apply sort_permutation|].
  split; [apply sort_ascending, H|]. intros t. apply sort_stable.
Qed.

Lemma sort_of_ascending (l : list A) : ascending key l -> sort' l = l.
Proof.
  unfold ascending. induction 1 as [|x l Hl IH Hhd]; [reflexivity|].
  simpl. rewrite IH. destruct Hhd as [|y ys Hxy]; [reflexivity|].
  simpl. unfold notAfter in Hxy.
  destruct (key x) as [a|] eqn:Ha; [|contradiction].
  destruct (key y) as [b|] eqn:Hb; [|contradiction].
  rewrite (SortCompare_dated x y a b Ha Hb).
  destruct (Z.gtb_spec (a - b) 0); [lia|reflexivity].
Qed.

Lemma ascending_head (x : A) (l : list A) :
  ascending key (x :: l) -> Forall (notAfter key x) l.
Proof.
  apply Sorted_extends. intros a b c. apply notAfter_trans.
Qed.

Lemma ascending_tail (x : A) (l : list A) :
  ascending key (x :: l) -> ascending key l.
Proof.
  intros H. inversion H; assumption.
Qed.

Lemma filter_ascending (f : A -> bool) (l : list A) :
  ascending key l -> ascending key (filter f l).
Proof.
  induction l as [|x l IH]; intros H; [exact H|].
  pose proof (ascending_head x l H) as Hx.
  specialize (IH (ascending_tail x l H)).
  simpl. destruct (f x); [|exact IH].
  constructor; [exact IH|].
  assert (Hf : Forall (notAfter key x) (filter f l)).
  { rewrite Forall_forall in *. intros y Hy.
    apply filter_In in Hy. apply Hx, Hy. }
  destruct (filter f l); constructor.
  inversion Hf; assumption.
Qed.

Lemma at_time_key (t : Z) (x : A) : at_time key t x = true <-> key x = Some t.
Proof.
  unfold at_time. destruct (key x) as [a|]; [|split; discriminate].
  destruct (Z.eqb_spec a t); split; congruence.
Qed.

(** Two ascending lists of dated records that agree key by key are
    the same list. *)
Lemma ascending_determined (l1 : list A) :
  forall l2,
    ascending key l1 -> ascending key l2 ->
    Forall (dated key) l1 -> Forall (dated key) l2 ->
    (forall t, filter (at_time key t) l1 = filter (at_time key t) l2) ->
    l1 = l2.
Proof.
  induction l1 as [|x l1 IH]; intros l2 H1 H2 D1 D2 Hf.
  - destruct l2 as [|y l2]; [reflexivity|].
    inversion D2 as [|? ? Dy _]; subst. unfold dated, NaN in Dy.
    destruct (key y) as [b|] eqn:Hb; [|congruence].
    specialize (Hf b). simpl in Hf.
    rewrite (proj2 (at_time_key b y) Hb) in Hf. discriminate.
  - inversion D1 as [|? ? Dx D1']; subst. unfold dated, NaN in Dx.
    destruct (key x) as [a|] eqn:Ha; [|congruence].
    destruct l2 as [|y l2].
    { specialize (Hf a). simpl in Hf.
      rewrite (proj2 (at_time_key a x) Ha) in Hf. discriminate. }
    inversion D2 as [|? ? Dy D2']; subst. unfold dated, NaN in Dy.
    destruct (key y) as [b|] eqn:Hb; [|congruence].
    pose proof (ascending_head x l1 H1) as Hx.
    pose proof (ascending_head y l2 H2) as Hy.
    rewrite Forall_forall in Hx, Hy.
    destruct (Z.lt_trichotomy a b) as [Hlt|[Heq|Hgt]].
    + exfalso. pose proof (Hf a) as Ht. simpl in Ht.
      rewrite (proj2 (at_time_key a x) Ha) in Ht.
      assert (Hn : at_time key a y = false).
      { unfold at_time. rewrite Hb. apply Z.eqb_neq. lia. }
      rewrite Hn in Ht.
      assert (Hin : In x (filter (at_time key a) l2)) by (rewrite <- Ht; left; reflexivity).
      apply filter_In in Hin. destruct Hin as [Hin _].
      specialize (Hy x Hin). unfold notAfter in Hy. rewrite Ha, Hb in Hy. lia.
    + subst b. pose proof (Hf a) as Ht. simpl in Ht.
      rewrite (proj2 (at_time_key a x) Ha), (proj2 (at_time_key a y) Hb) in Ht.
      injection Ht as Hxy _. subst y. f_equal.
      apply IH; try assumption; try (eapply ascending_tail; eassumption).
      intros t. specialize (Hf t). simpl in Hf.
      destruct (at_time key t x); [injection Hf; auto|exact Hf].
    + exfalso. pose proof (Hf b) as Ht. simpl in Ht.
      rewrite (proj2 (at_time_key b y) Hb) in Ht.
      assert (Hn : at_time key b x = false).
      { unfold at_time. rewrite Ha. apply Z.eqb_neq. lia. }
      rewrite Hn in Ht.
      assert (Hin : In y (filter (at_time key b) l1)) by (rewrite Ht; left; reflexivity).
      apply filter_In in Hin. destruct Hin as [Hin _].
      specialize (Hx y Hin). unfold notAfter in Hx. rewrite Ha, Hb in Hx. lia.
Qed.

(** With dated records the sort has one possible result, whatever the
    algorithm. *)
Lemma sort_unique (l l' : list A) :
  Forall (dated key) l -> resorted key l l' -> sort' l = l'.
Proof.
  intros D (Hp & Hs & Hf).
  apply ascending_determined.
  - apply sort_ascending, D.
  - exact Hs.
  - apply sort_dated, D.
  - eapply Permutation_Forall; eassumption.
  - intros t. rewrite sort_stable. symmetry. apply Hf.
Qed.

End SortFacts.

(** * Facts about the store *)

Section StoreFacts.

Variable LocalTZA : Z -> bool -> Z.
Variable toISOString : Z -> string.
Variable parseISO : string -> Date.

Local Abbreviation key := (scheduledAt parseISO).
Local Abbreviation apply' := (page.apply LocalTZA toISOString parseISO).
Local Abbreviation created' := (created LocalTZA toISOString).
Local Abbreviation changed' := (changed LocalTZA toISOString).
Local Abbreviation wellTimed' := (wellTimed LocalTZA toISOString parseISO).

Lemma byCustomDateTime_byKey : page.byCustomDateTime parseISO = byKey key.
Proof. reflexivity. Qed.

Lemma isDate_dated (d : Date) : isDate d = true <-> d <> NaN.
Proof.
  destruct d; simpl; split; intros H; try reflexivity; try discriminate.
  exfalso. apply H. reflexivity.
Qed.

(** What an operation leaves in [documents]. *)
Lemma documents_apply (s : page.State) (o : page.operation) :
  page.documents (apply' s o) =
    match o with
    | page.Add _ _ _ _ =>
        match created' o with
        | [] => page.documents s
        | _ :: _ => sort (byKey key) (changed' o (page.documents s))
        end
    | page.Update _ _ => sort (byKey key) (changed' o (page.documents s))
    | page.Remove _ => changed' o (page.documents s)
    end.
Proof.
  destruct o as [documentId today now f|id0 updates|id0]; try reflexivity.
  unfold changed. simpl. unfold page.add, FileUpload.handleFile.
  destruct (FileUpload.isValid
              (FileUpload.validateFile page.acceptedFileTypes page.maxFileSize f));
    simpl; [|reflexivity].
  unfold page.handleFileAdded.
  destruct (page.todayAt10AM LocalTZA today); reflexivity.
Qed.


Lemma created_dated (o : page.operation) :
  wellTimed' o = true -> Forall (dated key) (created' o).
Proof.
  destruct o as [documentId today now f|id0 updates|id0]; simpl; try constructor.
  destruct (FileUpload.isValid _); [|constructor].
  destruct (page.todayAt10AM LocalTZA today) as [at10|]; [|constructor].
  intros H. constructor; [|constructor].
  unfold dated, scheduledAt, getTime. simpl. apply isDate_dated, H.
Qed.

Lemma changed_dated (o : page.operation) (docs : list TravelDocument) :
  wellTimed' o = true -> Forall (dated key) docs ->
  Forall (dated key) (changed' o docs).
Proof.
  intros Hw Hd. destruct o as [documentId today now f|id0 updates|id0].
  - unfold changed. apply Forall_app. split; [exact Hd|].
    apply created_dated, Hw.
  - simpl. rewrite Forall_forall in *. intros d Hin.
    apply in_map_iff in Hin. destruct Hin as (doc & <- & Hin).
    destruct (String.eqb (id doc) id0); [|apply Hd, Hin].
    unfold dated, scheduledAt, getTime, spread. simpl.
    simpl in Hw. destruct (customDateTime_opt updates) as [t|]; simpl.
    + apply isDate_dated, Hw.
    + apply (Hd doc Hin).
  - simpl. rewrite Forall_forall in *. intros d Hin.
    apply filter_In in Hin. apply Hd, Hin.
Qed.

Lemma apply_inOrder (s : page.State) (o : page.operation) :
  wellTimed' o = true -> inOrder parseISO (page.documents s) ->
  inOrder parseISO (page.documents (apply' s o)).
Proof.
  intros Hw [Hd Hs]. rewrite documents_apply.
  pose proof (changed_dated o _ Hw Hd) as Hc.
  assert (Hsorted : inOrder parseISO (sort (byKey key) (changed' o (page.documents s)))).
  { split; [apply sort_dated|apply sort_ascending]; exact Hc. }
  destruct o as [documentId today now f|id0 updates|id0].
  - destruct (created' _); [split; assumption|exact Hsorted].
  - exact Hsorted.
  - split; [exact Hc|]. simpl. apply filter_ascending, Hs.
Qed.

Lemma initial_inOrder : inOrder parseISO (page.documents page.initial).
Proof. split; constructor. Qed.

Lemma history_inOrder (ops : list page.operation) :
  forall s,
    forallb wellTimed' ops = true -> inOrder parseISO (page.documents s) ->
    Forall (fun s' => inOrder parseISO (page.documents s'))
      (page.history LocalTZA toISOString parseISO s ops).
Proof.
  induction ops as [|o ops IH]; intros s Hw Hs; simpl; [constructor|].
  simpl in Hw. apply andb_true_iff in Hw. destruct Hw as [Ho Hw].
  pose proof (apply_inOrder s o Ho Hs) as Hs'.
  constructor; [exact Hs'|]. apply IH; assumption.
Qed.


End StoreFacts.

(** A timestamp that is no date compares as equal to every record,
    whichever side it stands on: this is why the statements below are
    about stores that hold dates. *)
Lemma undated_compares_equal (parseISO : string -> Date) (a b : TravelDocument) :
  parseISO (customDateTime a) = NaN ->
  SortCompare (page.byCustomDateTime parseISO) a b = 0
  /\ SortCompare (page.byCustomDateTime parseISO) b a = 0.
Proof.
  intros H. unfold SortCompare, page.byCustomDateTime, getTime. rewrite H.
  split; [reflexivity|]. destruct (parseISO (customDateTime b)); reflexivity.
Qed.

(** ** Ids stay unique *)

Lemma NoDup_filter_app (f : TravelDocument -> bool) (docs : list TravelDocument)
    (rest : list string) :
  NoDup (map id docs ++ rest)%list -> NoDup (map id (filter f docs) ++ rest)%list.
Proof.
  induction docs as [|d docs IH]; intros H; [exact H|].
  simpl in H. inversion H as [|? ? Hn Hd]; subst.
  simpl. destruct (f d); [|apply IH, Hd].
  simpl. constructor; [|apply IH, Hd].
  intros Hin. apply Hn. apply in_app_or in Hin. apply in_or_app.
  destruct Hin as [Hin|Hin]; [left|right; exact Hin].
  apply in_map_iff in Hin. destruct Hin as (x & Hx & Hin).
  apply filter_In in Hin. apply in_map_iff. exists x. tauto.
Qed.

Lemma map_id_spread (id0 : string) (updates : PartialTravelDocument)
    (docs : list TravelDocument) :
  id_opt updates = None ->
  map id (map (fun doc => if String.eqb (id doc) id0 then spread doc updates else doc)
            docs)
  = map id docs.
Proof.
  intros H. rewrite map_map. apply map_ext. intros doc.
  destruct (String.eqb (id doc) id0); [|reflexivity].
  unfold spread. simpl. rewrite H. reflexivity.
Qed.

Section UniqueIds.

Variable LocalTZA : Z -> bool -> Z.
Variable toISOString : Z -> string.
Variable parseISO : string -> Date.

Lemma apply_unique_ids (s : page.State) (o : page.operation) (rest : list string) :
  keepsId o = true ->
  NoDup (map id (page.documents s) ++ generated o ++ rest)%list ->
  NoDup (map id (page.documents (page.apply LocalTZA toISOString parseISO s o)) ++ rest)%list.
Proof.
  intros Hk H. rewrite documents_apply.
  destruct o as [documentId today now f|id0 updates|id0].
  - simpl in H. unfold changed.
    destruct (created LocalTZA toISOString (page.Add documentId today now f))
      as [|d l] eqn:Hc.
    + eapply NoDup_remove_1. exact H.
    + assert (E : d :: l = [page.newDocument toISOString documentId
                               (or_else (page.todayAt10AM LocalTZA today) 0) now f]).
      { unfold created in Hc.
        destruct (FileUpload.isValid _); [|discriminate].
        destruct (page.todayAt10AM LocalTZA today); [|discriminate].
        symmetry. exact Hc. }
      rewrite E.
      eapply Permutation_NoDup; [|exact H].
      replace (map id (page.documents s) ++ documentId :: rest)%list
        with ((map id (page.documents s) ++ [documentId]) ++ rest)%list
        by (rewrite <- app_assoc; reflexivity).
      apply Permutation_app_tail.
      change (map id (page.documents s) ++ [documentId])%list
        with (map id (page.documents s)
                ++ map id [page.newDocument toISOString documentId
                             (or_else (page.todayAt10AM LocalTZA today) 0) now f])%list.
      rewrite <- map_app. apply Permutation_map.
      apply (sort_permutation (scheduledAt parseISO)).
  - simpl in H, Hk. destruct (id_opt updates) eqn:Hid; [discriminate|].
    eapply Permutation_NoDup; [|exact H].
    apply Permutation_app_tail.
    rewrite <- (map_id_spread id0 updates (page.documents s) Hid).
    apply Permutation_map. apply (sort_permutation (scheduledAt parseISO)).
  - simpl in H. simpl. apply NoDup_filter_app, H.
Qed.

(** With ids that are generated once each and updates that leave ids
    alone, no two records of the store ever share an id. *)
Lemma history_unique_ids (ops : list page.operation) :
  forall s,
    forallb keepsId ops = true ->
    NoDup (map id (page.documents s) ++ flat_map generated ops)%list ->
    Forall (fun s' => NoDup (map id (page.documents s')))
      (page.history LocalTZA toISOString parseISO s ops).
Proof.
  induction ops as [|o ops IH]; intros s Hk H; simpl; [constructor|].
  simpl in Hk, H. apply andb_true_iff in Hk. destruct Hk as [Ho Hk].
  pose proof (apply_unique_ids s o _ Ho H) as H'.
  constructor; [|apply IH; assumption].
  apply NoDup_app_remove_r in H'. exact H'.
Qed.

End UniqueIds.

(** * The claims *)

(** C1. The claim is right and the page breaks it. [parseFileWithGPT]
    checks the name, the type and the confidence of the payload and not
    its timestamp, which [parseDocumentData] writes into
    [customDateTime] as it comes, although both are declared as ISO
    strings. After three uploads, a parse of the second record answered
    with the timestamp [TBD] and a change of the first record's date to
    17 January, [list()] shows 17 January before 15 January; the removal
    of the undated record leaves two dated records in the wrong order. *)
Theorem unvalidated_timestamp_breaks_order :
  exists s1 : page.State,
    page.parseDocumentData Iso8601.parseISO (Some "sk-key") Sample.JSON_parse3
      Sample.host3 Sample.second
      (page.execute Iso8601.LocalTZA Iso8601.toISOString Iso8601.parseISO
         page.initial Sample.threeUploads)
    = Some s1
    /\ map (fun doc => (id doc, customDateTime doc))
         (page.list_
            (snd (page.update Iso8601.parseISO "id-1"
                    (just_customDateTime "2025-01-17T04:30:00.000Z") s1)))
       = [ ("id-1", "2025-01-17T04:30:00.000Z");
           ("id-2", "TBD");
           ("id-3", "2025-01-15T04:30:00.000Z") ]
    /\ ~ ascending (scheduledAt Iso8601.parseISO)
           (page.list_
              (snd (page.update Iso8601.parseISO "id-1"
                      (just_customDateTime "2025-01-17T04:30:00.000Z") s1)))
    /\ map (fun doc => (id doc, customDateTime doc))
         (page.list_
            (snd (page.remove "id-2"
                    (snd (page.update Iso8601.parseISO "id-1"
                            (just_customDateTime "2025-01-17T04:30:00.000Z") s1)))))
       = [ ("id-1", "2025-01-17T04:30:00.000Z");
           ("id-3", "2025-01-15T04:30:00.000Z") ]
    /\ ~ ascending (scheduledAt Iso8601.parseISO)
           (page.list_
              (snd (page.remove "id-2"
                      (snd (page.update Iso8601.parseISO "id-1"
                              (just_customDateTime "2025-01-17T04:30:00.000Z") s1))))).
Proof.
  eexists. split; [vm_compute; reflexivity|].
  split; [vm_compute; reflexivity|].
  split; [|split; [vm_compute; reflexivity|]].
  - intros H.
    match type of H with
    | ascending _ ?l =>
        let l' := eval vm_compute in l in change l with l' in H
    end.
    apply Sorted_inv in H. destruct H as [_ H]. apply HdRel_inv in H.
    vm_compute in H. exact H.
  - intros H.
    match type of H with
    | ascending _ ?l =>
        let l' := eval vm_compute in l in change l with l' in H
    end.
    apply Sorted_inv in H. destruct H as [_ H]. apply HdRel_inv in H.
    vm_compute in H. apply H. reflexivity.
Qed.


(** ** Updates and removals of an absent id *)

Lemma map_others (id0 : string) (updates : PartialTravelDocument)
    (docs : list TravelDocument) :
  ~ In id0 (map id docs) ->
  map (fun doc => if String.eqb (id doc) id0 then spread doc updates else doc) docs
  = docs.
Proof.
  induction docs as [|d docs IH]; intros H; [reflexivity|].
  simpl in *. destruct (String.eqb_spec (id d) id0) as [E|_].
  - exfalso. apply H. left. exact E.
  - f_equal. apply IH. intros Hin. apply H. right. exact Hin.
Qed.

Lemma filter_others (id0 : string) (docs : list TravelDocument) :
  ~ In id0 (map id docs) ->
  filter (fun doc => negb (String.eqb (id doc) id0)) docs = docs.
Proof.
  induction docs as [|d docs IH]; intros H; [reflexivity|].
  simpl in *. destruct (String.eqb_spec (id d) id0) as [E|_]; simpl.
  - exfalso. apply H. left. exact E.
  - f_equal. apply IH. intros Hin. apply H. right. exact Hin.
Qed.

Lemma setDocuments_same (s : page.State) (f : list TravelDocument -> list TravelDocument) :
  f (page.documents s) = page.documents s -> page.setDocuments f s = s.
Proof.
  intros H. destruct s as [docs p a]. unfold page.setDocuments. simpl in *.
  rewrite H. reflexivity.
Qed.

(** C3, as the code has it. For every id not present in the store,
    [update] returns normally, with no error signalled, and changes no
    record: the list it leaves is the list it found, sorted once more,
    and the store is exactly as it was whenever the list was in order. *)
Theorem update_of_absent_id_changes_nothing :
  forall (parseISO : string -> Date) (id0 : string)
         (updates : PartialTravelDocument) (s : page.State),
    ~ In id0 (map id (page.list_ s)) ->
    fst (page.update parseISO id0 updates s) = Returned Undefined
    /\ ~ signalsError (fst (page.update parseISO id0 updates s))
    /\ snd (page.update parseISO id0 updates s)
       = page.setDocuments (sort (page.byCustomDateTime parseISO)) s
    /\ Permutation (page.list_ s)
         (page.list_ (snd (page.update parseISO id0 updates s)))
    /\ (ascending (scheduledAt parseISO) (page.list_ s) ->
        page.update parseISO id0 updates s = (Returned Undefined, s)).
Proof.
  intros parseISO id0 updates s Hid. unfold page.list_ in *.
  assert (E : snd (page.update parseISO id0 updates s)
              = page.setDocuments (sort (page.byCustomDateTime parseISO)) s).
  { unfold page.update, page.setDocuments. simpl.
    rewrite (map_others id0 updates _ Hid). reflexivity. }
  split; [reflexivity|]. split; [intros [exn H]; discriminate H|].
  split; [exact E|]. split.
  - rewrite E. simpl. apply (sort_permutation (scheduledAt parseISO)).
  - intros Hs. unfold page.update. simpl. f_equal.
    apply setDocuments_same. simpl.
    rewrite (map_others id0 updates _ Hid).
    apply (sort_of_ascending (scheduledAt parseISO)), Hs.
Qed.

(** C4, as the code has it. [remove] of a present id takes exactly one
    record out, the others staying where they are, and returns normally;
    a second [remove] of the same id also returns normally, with no error
    signalled, and leaves the store as the first one left it. *)
Theorem remove_takes_one_record_out :
  forall (id0 : string) (s : page.State),
    NoDup (map id (page.list_ s)) ->
    In id0 (map id (page.list_ s)) ->
    fst (page.remove id0 s) = Returned Undefined
    /\ (exists before doc after,
          page.list_ s = (before ++ doc :: after)%list
          /\ id doc = id0
          /\ page.list_ (snd (page.remove id0 s)) = (before ++ after)%list)
    /\ S (List.length (page.list_ (snd (page.remove id0 s))))
       = List.length (page.list_ s)
    /\ page.remove id0 (snd (page.remove id0 s))
       = (Returned Undefined, snd (page.remove id0 s)).
Proof.
  intros id0 s Hnd Hin. unfold page.list_ in *.
  apply in_map_iff in Hin. destruct Hin as (doc & Hid & Hin).
  apply in_split in Hin. destruct Hin as (before & after & Hdocs).
  rewrite Hdocs, map_app in Hnd. simpl in Hnd.
  pose proof (NoDup_remove_2 _ _ _ Hnd) as Hnot. rewrite Hid in Hnot.
  assert (Hb : ~ In id0 (map id before)).
  { intros H. apply Hnot, in_or_app. left. exact H. }
  assert (Ha : ~ In id0 (map id after)).
  { intros H. apply Hnot, in_or_app. right. exact H. }
  assert (Hrem : page.documents (snd (page.remove id0 s)) = (before ++ after)%list).
  { simpl. rewrite Hdocs, filter_app. simpl.
    rewrite (proj2 (String.eqb_eq (id doc) id0) Hid). simpl.
    rewrite (filter_others id0 before Hb), (filter_others id0 after Ha).
    reflexivity. }
  split; [reflexivity|]. split.
  { exists before, doc, after. repeat split; assumption. }
  split.
  { rewrite Hrem, Hdocs, !length_app. simpl. lia. }
  remember (snd (page.remove id0 s)) as s1 eqn:Es1.
  unfold page.remove. simpl fst. f_equal.
  apply setDocuments_same. simpl snd. rewrite Hrem.
  apply filter_others. rewrite map_app. intros H.
  apply in_app_or in H. tauto.
Qed.

(** ** The default of a new record *)

Lemma fields_at_midnight (q : Z) :
  Day (MakeDate q 0) = q
  /\ HourFromTime (MakeDate q 0) = 0
  /\ SecFromTime (MakeDate q 0) = 0
  /\ msFromTime (MakeDate q 0) = 0.
Proof.
  unfold Day, HourFromTime, SecFromTime, msFromTime, MakeDate,
    msPerDay, msPerHour, msPerSecond.
  repeat split.
  - rewrite Z.add_0_r. apply Z.div_mul. lia.
  - replace (q * 86400000 + 0) with (q * 24 * 3600000) by ring.
    rewrite Z.div_mul by lia. apply Z.mod_mul. lia.
  - replace (q * 86400000 + 0) with (q * 1440 * 60 * 1000) by ring.
    rewrite Z.div_mul by lia. apply Z.mod_mul. lia.
  - replace (q * 86400000 + 0) with (q * 86400 * 1000) by ring.
    apply Z.mod_mul. lia.
Qed.

Lemma fields_at_ten (q : Z) :
  Day (MakeDate q (MakeTime 10 0 0 0)) = q
  /\ HourFromTime (MakeDate q (MakeTime 10 0 0 0)) = 10
  /\ MinFromTime (MakeDate q (MakeTime 10 0 0 0)) = 0
  /\ SecFromTime (MakeDate q (MakeTime 10 0 0 0)) = 0
  /\ msFromTime (MakeDate q (MakeTime 10 0 0 0)) = 0.
Proof.
  unfold Day, HourFromTime, MinFromTime, SecFromTime, msFromTime, MakeDate,
    MakeTime, msPerDay, msPerHour, msPerMinute, msPerSecond.
  repeat split.
  - symmetry. apply Z.div_unique with (r := 36000000); lia.
  - replace (q * 86400000 + (10 * 3600000 + 0 * 60000 + 0 * 1000 + 0))
      with ((q * 24 + 10) * 3600000) by ring.
    rewrite Z.div_mul by lia.
    rewrite Z.add_comm, Z.mod_add by lia. reflexivity.
  - replace (q * 86400000 + (10 * 3600000 + 0 * 60000 + 0 * 1000 + 0))
      with ((q * 24 + 10) * 60 * 60000) by ring.
    rewrite Z.div_mul by lia. apply Z.mod_mul. lia.
  - replace (q * 86400000 + (10 * 3600000 + 0 * 60000 + 0 * 1000 + 0))
      with ((q * 1440 + 600) * 60 * 1000) by ring.
    rewrite Z.div_mul by lia. apply Z.mod_mul. lia.
  - replace (q * 86400000 + (10 * 3600000 + 0 * 60000 + 0 * 1000 + 0))
      with ((q * 86400 + 36000) * 1000) by ring.
    apply Z.mod_mul. lia.
Qed.

Lemma TimeClip_in_range (t : Z) :
  Z.abs t <= 8640000000000000 -> TimeClip t = Some t.
Proof.
  intros H. unfold TimeClip.
  destruct (Z.gtb_spec (Z.abs t) 8640000000000000); [lia|reflexivity].
Qed.

Section DefaultTime.

Variable LocalTZA : Z -> bool -> Z.

Lemma todayAt10AM_is_ten (today : Z) :
  onTheClock LocalTZA (midnightOf LocalTZA today) ->
  onTheClock LocalTZA (tenOf LocalTZA today) ->
  page.todayAt10AM LocalTZA today = Some (UTC LocalTZA (tenOf LocalTZA today)).
Proof.
  intros [Hm Hmr] [Ht Htr].
  unfold page.todayAt10AM, startOfDay, setMinutes, setHours.
  unfold Date_setHours at 2.
  change (MakeTime 0 0 0 0) with 0.
  fold (midnightOf LocalTZA today). rewrite (TimeClip_in_range _ Hmr).
  unfold Date_setMinutes. rewrite Hm.
  destruct (fields_at_midnight (Day (LocalTime LocalTZA today)))
    as (Hd & Hh & Hs & Hms).
  fold (midnightOf LocalTZA today) in Hd, Hh, Hs, Hms.
  rewrite Hd, Hh, Hs, Hms. change (MakeTime 0 0 0 0) with 0.
  fold (midnightOf LocalTZA today). rewrite (TimeClip_in_range _ Hmr).
  unfold Date_setHours. rewrite Hm, Hd, Hs, Hms.
  assert (Hmin : MinFromTime (midnightOf LocalTZA today) = 0).
  { unfold midnightOf, MinFromTime, MakeDate, msPerDay, msPerMinute.
    replace (Day (LocalTime LocalTZA today) * 86400000 + 0)
      with (Day (LocalTime LocalTZA today) * 24 * 60 * 60000) by ring.
    rewrite Z.div_mul by lia. apply Z.mod_mul. lia. }
  rewrite Hmin. fold (tenOf LocalTZA today). apply TimeClip_in_range, Htr.
Qed.

End DefaultTime.

(** C5, as the code has it. For every file the validator accepts, on a
    host where local midnight and local ten o'clock of the current day
    exist and the written timestamp is read back, [add] puts one new
    record in the store whose id is the generated one, whose
    [displayName] is the file's name and whose [scheduledAt] is the
    current local day at 10:00:00.000; the handler returns nothing to its
    caller. *)
Theorem add_creates_record_with_defaults :
  forall (LocalTZA : Z -> bool -> Z) (toISOString : Z -> string)
         (parseISO : string -> Date) (documentId : string) (today now : Z)
         (f : File) (s : page.State),
    FileUpload.isValid
      (FileUpload.validateFile page.acceptedFileTypes page.maxFileSize f) = true ->
    onTheClock LocalTZA (midnightOf LocalTZA today) ->
    onTheClock LocalTZA (tenOf LocalTZA today) ->
    parseISO (toISOString (UTC LocalTZA (tenOf LocalTZA today)))
    = Some (UTC LocalTZA (tenOf LocalTZA today)) ->
    exists (doc : TravelDocument) (at10 : Z),
      Permutation (doc :: page.list_ s)
        (page.list_ (page.add LocalTZA toISOString parseISO documentId today now f s))
      /\ id doc = documentId
      /\ file doc = f
      /\ displayName doc = name f
      /\ uploadedAt doc = now
      /\ scheduledAt parseISO doc = Some at10
      /\ Day (LocalTime LocalTZA at10) = Day (LocalTime LocalTZA today)
      /\ HourFromTime (LocalTime LocalTZA at10) = 10
      /\ MinFromTime (LocalTime LocalTZA at10) = 0
      /\ SecFromTime (LocalTime LocalTZA at10) = 0
      /\ msFromTime (LocalTime LocalTZA at10) = 0
      /\ fst (page.handleFileAdded LocalTZA toISOString parseISO documentId today now f
                (page.list_ s)) = Returned Undefined.
Proof.
  intros LocalTZA toISOString parseISO documentId today now f s Hv Hm Ht Hrt.
  pose proof (todayAt10AM_is_ten LocalTZA today Hm Ht) as H10.
  exists (page.newDocument toISOString documentId (UTC LocalTZA (tenOf LocalTZA today)) now f),
         (UTC LocalTZA (tenOf LocalTZA today)).
  destruct Ht as [Hlocal _]. rewrite Hlocal.
  destruct (fields_at_ten (Day (LocalTime LocalTZA today))) as (Hd & Hh & Hmi & Hs & Hms).
  fold (tenOf LocalTZA today) in Hd, Hh, Hmi, Hs, Hms.
  repeat split; try assumption.
  - unfold page.list_.
    change (page.add LocalTZA toISOString parseISO documentId today now f s)
      with (page.apply LocalTZA toISOString parseISO s
              (page.Add documentId today now f)).
    rewrite (documents_apply LocalTZA toISOString parseISO s
               (page.Add documentId today now f)).
    unfold created. rewrite Hv, H10.
    eapply perm_trans; [|apply sort_permutation].
    unfold changed, created. rewrite Hv, H10.
    apply Permutation_cons_append.
  - unfold page.handleFileAdded. rewrite H10. reflexivity.
Qed.

(** In the page before parsing was added, the default of a new record
    was the moment of the upload itself. *)
Lemma earlierPage_default (toISOString : Z -> string) (newDate : string -> Date)
    (documentId : string) (today now : Z) (f : File) :
  map customDateTime
    (snd (earlierPage.handleFileAdded toISOString newDate documentId today now f []))
  = [toISOString today].
Proof. reflexivity. Qed.

(** ** The validator *)

Lemma existsb_eqb_In (x : string) (l : list string) :
  existsb (String.eqb x) l = true <-> In x l.
Proof.
  rewrite existsb_exists. split.
  - intros (y & Hin & Heq). apply String.eqb_eq in Heq. subst y. exact Hin.
  - intros Hin. exists x. split; [exact Hin|apply String.eqb_refl].
Qed.

Lemma existsb_eqb_not_In (x : string) (l : list string) :
  existsb (String.eqb x) l = false <-> ~ In x l.
Proof.
  rewrite <- existsb_eqb_In. destruct (existsb (String.eqb x) l); split;
    intros H; try reflexivity; try discriminate; try congruence.
Qed.

(** C6. The validator rejects every file larger than [maxFileSize],
    whatever its type, with the size message; when the accepted types are
    not the wildcard it rejects every file whose type is not among them,
    whatever its size, and with the type message when the size is within
    the limit; every file that passes both checks is accepted. The
    validator is a function of the props and the file only. *)
Theorem validator_rejects_by_size_then_type :
  forall (acceptedFileTypes : list string) (maxFileSize : Z) (f : File),
    (size f > maxFileSize ->
     FileUpload.validateFile acceptedFileTypes maxFileSize f
     = {| FileUpload.isValid := false;
          FileUpload.error := Some (FileUpload.sizeExceeded maxFileSize) |})
    /\ (FileUpload.acceptsAll acceptedFileTypes = false ->
        ~ In (type f) acceptedFileTypes ->
        FileUpload.isValid (FileUpload.validateFile acceptedFileTypes maxFileSize f)
        = false
        /\ (size f <= maxFileSize ->
            FileUpload.validateFile acceptedFileTypes maxFileSize f
            = {| FileUpload.isValid := false;
                 FileUpload.error := Some (FileUpload.unsupportedType f) |}))
    /\ (size f <= maxFileSize ->
        FileUpload.acceptsAll acceptedFileTypes = true
        \/ In (type f) acceptedFileTypes ->
        FileUpload.validateFile acceptedFileTypes maxFileSize f
        = {| FileUpload.isValid := true; FileUpload.error := None |}).
Proof.
  intros types maxFileSize f. unfold FileUpload.validateFile.
  destruct (Z.gtb_spec (size f) maxFileSize) as [Hgt|Hle].
  - split; [reflexivity|]. split; [|lia].
    intros _ _. split; [reflexivity|lia].
  - split; [lia|]. split.
    + intros Hw Hin. apply existsb_eqb_not_In in Hin.
      rewrite Hw, Hin. simpl. split; reflexivity.
    + intros _ [Hw|Hin].
      * rewrite Hw. reflexivity.
      * apply existsb_eqb_In in Hin. rewrite Hin, andb_false_r. reflexivity.
Qed.

(** ** The parser *)

(** C7. [parseDocument] answers at once, with no read of the file and no
    request to the service, for every file whose type is not supported
    for parsing (the type message) and for every supported file larger
    than 10MB (the size message); a [text/plain] file of 11MB gets the
    size message. *)
Theorem parser_rejects_up_front :
  forall (apiKey : option string) (JSON_parse : string -> option json) (f : File),
    (fileParser.isFileTypeSupported f = false ->
     fileParser.parseDocument apiKey JSON_parse f
     = Ret (failure (fileParser.unsupportedForParsing f)))
    /\ (fileParser.isFileTypeSupported f = true ->
        size f > fileParser.maxSizeForParsing ->
        fileParser.parseDocument apiKey JSON_parse f
        = Ret (failure (fileParser.tooLarge f)))
    /\ (fileParser.isFileTypeSupported f = false
        \/ size f > fileParser.maxSizeForParsing ->
        forall h : Host,
          snd (run h (fileParser.parseDocument apiKey JSON_parse f)) = []
          /\ success (fst (run h (fileParser.parseDocument apiKey JSON_parse f)))
             = false)
    /\ (forall fileName : string,
          fileParser.parseDocument apiKey JSON_parse
            (mkFile fileName "text/plain" (11 * MB))
          = Ret (failure
                   "File is too large for AI parsing (11MB). Maximum size for parsing is 10MB.")).
Proof.
  intros apiKey JSON_parse f. unfold fileParser.parseDocument.
  split; [intros H; rewrite H; reflexivity|].
  split.
  { intros H Hs. rewrite H. simpl.
    destruct (Z.gtb_spec (size f) fileParser.maxSizeForParsing); [reflexivity|lia]. }
  split; [|intros fileName; reflexivity].
  intros H h.
  destruct (fileParser.isFileTypeSupported f); simpl; [|split; reflexivity].
  destruct H as [H|H]; [discriminate|].
  destruct (Z.gtb_spec (size f) fileParser.maxSizeForParsing); [|lia].
  split; reflexivity.
Qed.

(** The image parser makes the same two checks before anything else. It
    does not list [text/plain], so there an 11MB text file is turned away
    for its type. *)
Lemma imageParser_rejects_up_front (apiKey : option string) (f : File) :
  imageParser.isFileTypeSupported f = false \/ size f > imageParser.maxSize ->
  imageParser.parseDocument apiKey f = Ret (failure (imageParser.unsupported f))
  \/ imageParser.parseDocument apiKey f = Ret (failure (imageParser.tooLarge f)).
Proof.
  intros H. unfold imageParser.parseDocument, imageParser.parseFileWithGPT.
  destruct (imageParser.isFileTypeSupported f); simpl; [|left; reflexivity].
  destruct H as [H|H]; [discriminate|].
  destruct (Z.gtb_spec (size f) imageParser.maxSize); [right; reflexivity|lia].
Qed.

Lemma imageParser_text_file (apiKey : option string) :
  imageParser.parseDocument apiKey Sample.notes
  = Ret (failure
           "File type text/plain is not supported. Supported: PDF, Word, TXT, CSV, JSON").
Proof. reflexivity. Qed.

Lemma includes_known (l : list string) (v : option json) :
  includes l v = true -> exists level, v = Some (JString level) /\ In level l.
Proof.
  destruct v as [[| | |s| |]|]; simpl; try discriminate.
  intros H. exists s. split; [reflexivity|]. apply existsb_eqb_In, H.
Qed.

Lemma truthy_value (v : option json) : truthy v = true -> exists j, v = Some j.
Proof.
  destruct v as [j|]; [intros _; exists j; reflexivity|discriminate].
Qed.

(** What [validate] makes of a payload that lacks a mandatory field or
    whose confidence is not one of the three levels. *)
Lemma validate_incomplete (payload : json) :
  lacks "documentName" payload \/ lacks "documentType" payload
  \/ lacks "confidence" payload \/ ~ confidenceKnown payload ->
  validate_cases payload.
Proof.
  unfold validate_cases, fileParser.validate, lacks, confidenceKnown.
  intros H.
  destruct (get "documentName" payload) as [dn|] eqn:Hdn; [|left; reflexivity].
  destruct (get "documentType" payload) as [dt|] eqn:Hdt; [|left; reflexivity].
  destruct (get "confidence" payload) as [c|] eqn:Hc; [|left; reflexivity].
  right.
  destruct (truthy dn) eqn:Tdn; simpl; [|left; reflexivity].
  destruct (truthy dt) eqn:Tdt; simpl; [|left; reflexivity].
  destruct (truthy c) eqn:Tc; simpl; [|left; reflexivity].
  destruct (includes ["high"; "medium"; "low"] c) eqn:Hi; simpl;
    [|right; reflexivity].
  exfalso.
  destruct (truthy_value dn Tdn) as (j1 & ->).
  destruct (truthy_value dt Tdt) as (j2 & ->).
  destruct (truthy_value c Tc) as (j3 & ->).
  destruct H as [H|[H|[H|H]]].
  - apply (H j1). reflexivity.
  - apply (H j2). reflexivity.
  - apply (H j3). reflexivity.
  - apply H. destruct (includes_known _ _ Hi) as (level & E & Hin).
    exists level. split; [rewrite E; reflexivity|exact Hin].
Qed.

Lemma fst_run_readAsText {R : Type} (h : Host) (f : File) (k : option string -> Eff R) :
  fst (run h (readAsText f k)) = fst (run h (k (contents h f))).
Proof. simpl. destruct (run h (k (contents h f))). reflexivity. Qed.

Lemma fst_run_chatCompletionsCreate {R : Type} (h : Host) (f : File) (c : string)
    (k : settled (option string) -> Eff R) :
  fst (run h (chatCompletionsCreate f c k)) = fst (run h (k (service h f c))).
Proof. simpl. destruct (run h (k (service h f c))). reflexivity. Qed.

Lemma failure_isFailure (message : string) : isFailure (failure message).
Proof. split; reflexivity. Qed.

Section ParserFacts.

Variable apiKey : option string.
Variable JSON_parse : string -> option json.

Lemma parseResponse_incomplete (response : string) (payload : json) :
  JSON_parse response = Some payload ->
  validate_cases payload ->
  fileParser.parseResponse JSON_parse response = failure fileParser.failedToParse
  \/ fileParser.parseResponse JSON_parse response
     = failure fileParser.missingRequiredFields
  \/ fileParser.parseResponse JSON_parse response
     = failure fileParser.invalidConfidence.
Proof.
  intros Hp Hv. unfold fileParser.parseResponse. rewrite Hp.
  destruct Hv as [Hv|[Hv|Hv]]; rewrite Hv; auto.
Qed.

Lemma parseFileWithGPT_incomplete (h : Host) (f : File) (fileContent response : string) :
  service h f fileContent = Fulfilled (Some response) ->
  isFailure (fileParser.parseResponse JSON_parse response) ->
  isFailure (fst (run h (fileParser.parseFileWithGPT apiKey JSON_parse f fileContent))).
Proof.
  intros Hs Hr. unfold fileParser.parseFileWithGPT.
  destruct (fileParser.keyAvailable apiKey); simpl negb; cbv iota;
    [|apply failure_isFailure].
  rewrite fst_run_chatCompletionsCreate, Hs.
  destruct (String.eqb response EmptyString); [apply failure_isFailure|exact Hr].
Qed.

Lemma parseDocument_incomplete (h : Host) (f : File) (response : string) :
  (forall fileContent, service h f fileContent = Fulfilled (Some response)) ->
  isFailure (fileParser.parseResponse JSON_parse response) ->
  isFailure (fst (run h (fileParser.parseDocument apiKey JSON_parse f))).
Proof.
  intros Hs Hr. unfold fileParser.parseDocument.
  destruct (fileParser.isFileTypeSupported f); simpl negb; cbv iota;
    [|apply failure_isFailure].
  destruct (size f >? fileParser.maxSizeForParsing); [apply failure_isFailure|].
  unfold fileParser.readFileAsText. simpl bind.
  rewrite fst_run_readAsText.
  destruct (contents h f) as [content|]; [|apply failure_isFailure].
  destruct (Z.of_nat (String.length content) >? fileParser.maxLength);
    simpl bind; apply (parseFileWithGPT_incomplete h f _ response); auto.
Qed.

End ParserFacts.

(** C8. For every payload the service answers with that lacks
    [documentName], [documentType] or [confidence], or whose confidence
    is not one of high, medium and low, the parser's result is a failure
    that carries no data, with the message of the failed check; so are
    the results of [parseFileWithGPT] and [parseDocument] on a host
    whose service gives that answer. *)
Theorem incomplete_payload_is_a_failure :
  forall (apiKey : option string) (JSON_parse : string -> option json)
         (response : string) (payload : json),
    JSON_parse response = Some payload ->
    lacks "documentName" payload \/ lacks "documentType" payload
    \/ lacks "confidence" payload \/ ~ confidenceKnown payload ->
    (fileParser.parseResponse JSON_parse response
     = failure fileParser.failedToParse
     \/ fileParser.parseResponse JSON_parse response
        = failure fileParser.missingRequiredFields
     \/ fileParser.parseResponse JSON_parse response
        = failure fileParser.invalidConfidence)
    /\ (forall (h : Host) (f : File) (fileContent : string),
          service h f fileContent = Fulfilled (Some response) ->
          isFailure
            (fst (run h (fileParser.parseFileWithGPT apiKey JSON_parse f fileContent))))
    /\ (forall (h : Host) (f : File),
          (forall fileContent, service h f fileContent = Fulfilled (Some response)) ->
          isFailure (fst (run h (fileParser.parseDocument apiKey JSON_parse f)))).
Proof.
  intros apiKey JSON_parse response payload Hp Hi.
  pose proof (parseResponse_incomplete JSON_parse response payload Hp
                (validate_incomplete payload Hi)) as Hr.
  assert (Hf : isFailure (fileParser.parseResponse JSON_parse response)).
  { destruct Hr as [E|[E|E]]; rewrite E; apply failure_isFailure. }
  split; [exact Hr|]. split.
  - intros h f fileContent Hs.
    apply (parseFileWithGPT_incomplete apiKey JSON_parse h f fileContent response);
      assumption.
  - intros h f Hs.
    apply (parseDocument_incomplete apiKey JSON_parse h f response); assumption.
Qed.

(** ** Parsing and the store *)

(** C9. When the parse of a record ends in a failure (a result with
    [success] false, or a rejection), [parseDocumentData] leaves the list
    of documents exactly as it was: it shows a dialog and clears the
    parsing flag, and nothing else. *)
Theorem failed_parse_leaves_store_unchanged :
  forall (parseISO : string -> Date) (doc : TravelDocument) (s : page.State),
    (forall result : FileParseResult,
        success result = false ->
        exists s',
          page.parseDocumentData_settled parseISO doc (Fulfilled result) s = Some s'
          /\ page.list_ s' = page.list_ s
          /\ page.parsingId s' = None)
    /\ (forall e : exception,
          exists s',
            page.parseDocumentData_settled parseISO doc (Rejected e) s = Some s'
            /\ page.list_ s' = page.list_ s
            /\ page.parsingId s' = None)
    /\ (forall (apiKey : option string) (JSON_parse : string -> option json)
               (h : Host),
          success (fst (run h (fileParser.parseDocument apiKey JSON_parse (file doc))))
          = false ->
          exists s',
            page.parseDocumentData parseISO apiKey JSON_parse h doc s = Some s'
            /\ page.list_ s' = page.list_ s
            /\ page.parsingId s' = None).
Proof.
  intros parseISO doc s.
  assert (G : forall (result : FileParseResult) (s0 : page.State),
             success result = false ->
             exists s',
               page.parseDocumentData_settled parseISO doc (Fulfilled result) s0 = Some s'
               /\ page.list_ s' = page.list_ s0
               /\ page.parsingId s' = None).
  { intros result s0 H. unfold page.parseDocumentData_settled. rewrite H.
    destruct (data result); simpl; eexists; repeat split. }
  split; [intros result H; apply G, H|]. split.
  - intros e. eexists. repeat split.
  - intros apiKey JSON_parse h H. unfold page.parseDocumentData.
    destruct (run h (fileParser.parseDocument apiKey JSON_parse (file doc)))
      as [result calls].
    simpl in H. destruct (G result (page.setParsingId (Some (id doc)) s) H)
      as (s' & E & Hl & Hp).
    exists s'. repeat split; assumption.
Qed.

(** C10. [update] changes at most the records whose id is the given one:
    the list it leaves is a rearrangement of the other records, each
    exactly as it was, together with the updated ones; every other record
    is still in the list with all its fields. *)
Theorem update_leaves_other_records :
  forall (parseISO : string -> Date) (id0 : string)
         (updates : PartialTravelDocument) (s : page.State),
    Permutation
      (filter (fun doc => negb (String.eqb (id doc) id0)) (page.list_ s)
         ++ map (fun doc => spread doc updates)
              (filter (fun doc => String.eqb (id doc) id0) (page.list_ s)))%list
      (page.list_ (snd (page.update parseISO id0 updates s)))
    /\ forall doc : TravelDocument,
         In doc (page.list_ s) -> id doc <> id0 ->
         In doc (page.list_ (snd (page.update parseISO id0 updates s))).
Proof.
  intros parseISO id0 updates s. unfold page.list_. simpl.
  assert (P : Permutation
                (filter (fun doc => negb (String.eqb (id doc) id0)) (page.documents s)
                   ++ map (fun doc => spread doc updates)
                        (filter (fun doc => String.eqb (id doc) id0) (page.documents s)))%list
                (map (fun doc => if String.eqb (id doc) id0 then spread doc updates else doc)
                   (page.documents s))).
  { induction (page.documents s) as [|d docs IH]; simpl; [constructor|].
    destruct (String.eqb (id d) id0); simpl.
    - apply Permutation_sym. eapply perm_trans;
        [apply perm_skip, Permutation_sym, IH|]. apply Permutation_middle.
    - apply perm_skip, IH. }
  split.
  - eapply perm_trans; [exact P|]. apply (sort_permutation (scheduledAt parseISO)).
  - intros doc Hin Hid.
    eapply Permutation_in;
      [eapply perm_trans; [exact P|apply (sort_permutation (scheduledAt parseISO))]|].
    apply in_or_app. left. apply filter_In. split; [exact Hin|].
    destruct (String.eqb_spec (id doc) id0); [contradiction|reflexivity].
Qed.

(** * The theorems at work *)

(** The session of [Sample], run: two uploads, a change of date that
    moves the first record, a change of name, a removal. *)
Example session_lists :
  map (fun s => map (fun doc => (id doc, displayName doc, customDateTime doc))
                 (page.list_ s))
    (page.history Iso8601.LocalTZA Iso8601.toISOString Iso8601.parseISO
       page.initial Sample.session)
  = [ [ ("id-1", "ticket.pdf", "2025-01-15T04:30:00.000Z") ];
      [ ("id-1", "ticket.pdf", "2025-01-15T04:30:00.000Z");
        ("id-2", "visa.png", "2025-01-15T04:30:00.000Z") ];
      [ ("id-1", "ticket.pdf", "2024-12-25T09:00:00.000Z");
        ("id-2", "visa.png", "2025-01-15T04:30:00.000Z") ];
      [ ("id-1", "ticket.pdf", "2024-12-25T09:00:00.000Z");
        ("id-2", "Visa for Singapore", "2025-01-15T04:30:00.000Z") ];
      [ ("id-2", "Visa for Singapore", "2025-01-15T04:30:00.000Z") ] ].
Proof. vm_compute. reflexivity. Qed.


(** C3 as stated fails: an update of an id the store does not hold
    signals no error. *)
Lemma update_of_absent_id_signals_nothing :
  ~ In "ghost" (map id (page.list_ Sample.one))
  /\ ~ signalsError
         (fst (page.update Iso8601.parseISO "ghost" (just_displayName "Visa")
                 Sample.one)).
Proof.
  split.
  - simpl. intros [H|[]]. discriminate H.
  - intros [exn H]. discriminate H.
Qed.

(** The update of an absent id on a list that is the wrong way round:
    no error, the same two records, put in order. *)
Lemma update_of_absent_id_changes_nothing_example :
  ~ In "ghost" (map id (page.list_ Sample.disordered))
  /\ fst (page.update Iso8601.parseISO "ghost" (just_displayName "Visa")
            Sample.disordered) = Returned Undefined
  /\ Permutation (page.list_ Sample.disordered)
       (page.list_ (snd (page.update Iso8601.parseISO "ghost"
                           (just_displayName "Visa") Sample.disordered))).
Proof.
  assert (Hn : ~ In "ghost" (map id (page.list_ Sample.disordered))).
  { simpl. intros [H|[H|[]]]; discriminate H. }
  split; [exact Hn|].
  destruct (update_of_absent_id_changes_nothing Iso8601.parseISO "ghost"
              (just_displayName "Visa") Sample.disordered Hn)
    as (Hr & _ & _ & Hp & _).
  split; [exact Hr|exact Hp].
Defined.

Example update_of_absent_id_sorts :
  map id (page.list_ (snd (page.update Iso8601.parseISO "ghost"
                             (just_displayName "Visa") Sample.disordered)))
  = ["id-1"; "id-2"].
Proof. vm_compute. reflexivity. Qed.

(** C4 as stated fails: the second removal of an id signals no error. *)
Lemma second_remove_signals_nothing :
  ~ In "id-1" (map id (page.list_ (snd (page.remove "id-1" Sample.one))))
  /\ ~ signalsError
         (fst (page.remove "id-1" (snd (page.remove "id-1" Sample.one)))).
Proof.
  split.
  - simpl. intros [].
  - intros [exn H]. discriminate H.
Qed.

Lemma remove_takes_one_record_out_example :
  NoDup (map id (page.list_ Sample.one))
  /\ In "id-1" (map id (page.list_ Sample.one))
  /\ S (List.length (page.list_ (snd (page.remove "id-1" Sample.one))))
     = List.length (page.list_ Sample.one)
  /\ page.remove "id-1" (snd (page.remove "id-1" Sample.one))
     = (Returned Undefined, snd (page.remove "id-1" Sample.one)).
Proof.
  assert (Hn : NoDup (map id (page.list_ Sample.one))).
  { simpl. constructor; [intros []|constructor]. }
  assert (Hi : In "id-1" (map id (page.list_ Sample.one))) by (left; reflexivity).
  split; [exact Hn|]. split; [exact Hi|].
  exact (proj2 (proj2 (remove_takes_one_record_out "id-1" Sample.one Hn Hi))).
Defined.

(** C5 as stated fails: the handler of an accepted file returns
    [undefined], not the id of the record it made. *)
Lemma add_returns_no_id :
  FileUpload.isValid
    (FileUpload.validateFile page.acceptedFileTypes page.maxFileSize Sample.ticket)
  = true
  /\ fst (page.handleFileAdded Iso8601.LocalTZA Iso8601.toISOString Iso8601.parseISO
            "id-1" Sample.morning Sample.morning Sample.ticket [])
     <> Returned (Str "id-1").
Proof.
  split; [reflexivity|]. vm_compute. discriminate.
Qed.

Lemma add_creates_record_with_defaults_example :
  exists (doc : TravelDocument) (at10 : Z),
    Permutation (doc :: page.list_ Sample.one)
      (page.list_ (page.add Iso8601.LocalTZA Iso8601.toISOString Iso8601.parseISO
                     "id-2" Sample.morning Sample.morning Sample.visa Sample.one))
    /\ id doc = "id-2"
    /\ file doc = Sample.visa
    /\ displayName doc = "visa.png"
    /\ uploadedAt doc = Sample.morning
    /\ scheduledAt Iso8601.parseISO doc = Some at10
    /\ Day (LocalTime Iso8601.LocalTZA at10)
       = Day (LocalTime Iso8601.LocalTZA Sample.morning)
    /\ HourFromTime (LocalTime Iso8601.LocalTZA at10) = 10
    /\ MinFromTime (LocalTime Iso8601.LocalTZA at10) = 0
    /\ SecFromTime (LocalTime Iso8601.LocalTZA at10) = 0
    /\ msFromTime (LocalTime Iso8601.LocalTZA at10) = 0
    /\ fst (page.handleFileAdded Iso8601.LocalTZA Iso8601.toISOString
              Iso8601.parseISO "id-2" Sample.morning Sample.morning Sample.visa
              (page.list_ Sample.one))
       = Returned Undefined.
Proof.
  apply (add_creates_record_with_defaults Iso8601.LocalTZA Iso8601.toISOString
           Iso8601.parseISO "id-2" Sample.morning Sample.morning Sample.visa
           Sample.one).
  - reflexivity.
  - split; [vm_compute; reflexivity|vm_compute; discriminate].
  - split; [vm_compute; reflexivity|vm_compute; discriminate].
  - vm_compute. reflexivity.
Defined.

Lemma validator_rejects_by_size_then_type_example :
  FileUpload.acceptsAll page.acceptedFileTypes = false
  /\ ~ In (type Sample.notes) page.acceptedFileTypes
  /\ size Sample.notes <= page.maxFileSize
  /\ FileUpload.validateFile page.acceptedFileTypes page.maxFileSize Sample.notes
     = {| FileUpload.isValid := false;
          FileUpload.error := Some "File type text/plain is not supported" |}.
Proof.
  assert (Hw : FileUpload.acceptsAll page.acceptedFileTypes = false) by reflexivity.
  assert (Hn : ~ In (type Sample.notes) page.acceptedFileTypes).
  { simpl. intuition discriminate. }
  assert (Hs : size Sample.notes <= page.maxFileSize) by (vm_compute; discriminate).
  split; [exact Hw|]. split; [exact Hn|]. split; [exact Hs|].
  exact (proj2 (proj1 (proj2 (validator_rejects_by_size_then_type
                                page.acceptedFileTypes page.maxFileSize Sample.notes))
                  Hw Hn) Hs).
Defined.

Lemma parser_rejects_up_front_example :
  fileParser.isFileTypeSupported Sample.notes = true
  /\ size Sample.notes > fileParser.maxSizeForParsing
  /\ fileParser.parseDocument (Some "sk-key") Sample.JSON_parse Sample.notes
     = Ret (failure (fileParser.tooLarge Sample.notes))
  /\ snd (run Sample.host
            (fileParser.parseDocument (Some "sk-key") Sample.JSON_parse Sample.notes))
     = [].
Proof.
  assert (Ht : fileParser.isFileTypeSupported Sample.notes = true) by reflexivity.
  assert (Hs : size Sample.notes > fileParser.maxSizeForParsing) by reflexivity.
  split; [exact Ht|]. split; [exact Hs|]. split.
  - exact (proj1 (proj2 (parser_rejects_up_front (Some "sk-key") Sample.JSON_parse
                           Sample.notes)) Ht Hs).
  - exact (proj1 (proj1 (proj2 (proj2 (parser_rejects_up_front (Some "sk-key")
                                         Sample.JSON_parse Sample.notes)))
                    (or_intror Hs) Sample.host)).
Defined.

Lemma incomplete_payload_is_a_failure_example :
  Sample.JSON_parse Sample.answer = Some Sample.payload
  /\ lacks "documentType" Sample.payload
  /\ isFailure
       (fst (run Sample.host
               (fileParser.parseDocument (Some "sk-key") Sample.JSON_parse
                  Sample.ticket))).
Proof.
  assert (Hp : Sample.JSON_parse Sample.answer = Some Sample.payload)
    by reflexivity.
  assert (Hl : lacks "documentType" Sample.payload).
  { intros v. vm_compute. discriminate. }
  split; [exact Hp|]. split; [exact Hl|].
  exact (proj2 (proj2 (incomplete_payload_is_a_failure (Some "sk-key")
                         Sample.JSON_parse Sample.answer Sample.payload Hp
                         (or_intror (or_introl Hl))))
           Sample.host Sample.ticket (fun _ => eq_refl)).
Defined.

(** The parse of [Sample.record] on [Sample.host]: one read, one
    request, and the failure of the missing field. *)
Example parse_of_incomplete_answer :
  run Sample.host
    (fileParser.parseDocument (Some "sk-key") Sample.JSON_parse Sample.ticket)
  = (failure "Invalid response format from OpenAI - missing required fields",
     [FileRead Sample.ticket; ServiceRequest Sample.ticket "Visa, Singapore"]).
Proof. vm_compute. reflexivity. Qed.

Lemma failed_parse_leaves_store_unchanged_example :
  success (fst (run Sample.host
                  (fileParser.parseDocument (Some "sk-key") Sample.JSON_parse
                     (file Sample.record)))) = false
  /\ exists s',
       page.parseDocumentData Iso8601.parseISO (Some "sk-key") Sample.JSON_parse
         Sample.host Sample.record Sample.one = Some s'
       /\ page.list_ s' = page.list_ Sample.one
       /\ page.parsingId s' = None.
Proof.
  assert (H : success (fst (run Sample.host
                              (fileParser.parseDocument (Some "sk-key")
                                 Sample.JSON_parse (file Sample.record)))) = false)
    by (vm_compute; reflexivity).
  split; [exact H|].
  exact (proj2 (proj2 (failed_parse_leaves_store_unchanged Iso8601.parseISO
                         Sample.record Sample.one))
           (Some "sk-key") Sample.JSON_parse Sample.host H).
Defined.

Lemma update_leaves_other_records_example :
  In Sample.record (page.list_ Sample.one)
  /\ id Sample.record <> "id-2"
  /\ In Sample.record
       (page.list_ (snd (page.update Iso8601.parseISO "id-2"
                           (just_displayName "Visa") Sample.one))).
Proof.
  assert (Hi : In Sample.record (page.list_ Sample.one)) by (left; reflexivity).
  assert (Hn : id Sample.record <> "id-2") by discriminate.
  split; [exact Hi|]. split; [exact Hn|].
  exact (proj2 (update_leaves_other_records Iso8601.parseISO "id-2"
                  (just_displayName "Visa") Sample.one) Sample.record Hi Hn).
Defined.

(** * More of the parser *)

Lemma length_append (s1 s2 : string) :
  String.length (s1 ++ s2) = (String.length s1 + String.length s2)%nat.
Proof.
  induction s1 as [|c s1 IH]; simpl; [reflexivity|]. rewrite IH. reflexivity.
Qed.

Lemma length_substring (n : nat) :
  forall s, (String.length (substring 0 n s) <= n)%nat.
Proof.
  induction n as [|n IH]; intros s.
  - destruct s; simpl; lia.
  - destruct s as [|c s]; simpl; [lia|]. specialize (IH s). lia.
Qed.

Lemma cut_short (content : string) :
  Z.of_nat (String.length content) <= fileParser.maxLength -> cut content = content.
Proof.
  intros H. unfold cut.
  destruct (Z.gtb_spec (Z.of_nat (String.length content)) fileParser.maxLength);
    [lia|reflexivity].
Qed.

Lemma cut_bounded (content : string) :
  Z.of_nat (String.length (cut content)) <= fileParser.maxLength + 35.
Proof.
  unfold cut.
  destruct (Z.gtb_spec (Z.of_nat (String.length content)) fileParser.maxLength)
    as [Hlong|Hshort]; [|lia].
  rewrite length_append.
  pose proof (length_substring (Z.to_nat fileParser.maxLength) content) as Hs.
  assert (Hm : 0 <= fileParser.maxLength) by (unfold fileParser.maxLength; lia).
  change (String.length
            (String (ascii_of_nat 10)
               (String (ascii_of_nat 10) "[Content truncated due to length]")))
    with 35%nat.
  lia.
Qed.

Section ParserRuns.

Variable apiKey : option string.
Variable JSON_parse : string -> option json.

(** A run of [parseFileWithGPT], flattened. *)
Lemma parseFileWithGPT_run (h : Host) (f : File) (fileContent : string) :
  run h (fileParser.parseFileWithGPT apiKey JSON_parse f fileContent)
  = if negb (fileParser.keyAvailable apiKey) then
      (failure fileParser.keyNotConfigured, [])
    else
      (answered JSON_parse (service h f fileContent),
       [ServiceRequest f fileContent]).
Proof.
  unfold fileParser.parseFileWithGPT.
  destruct (fileParser.keyAvailable apiKey); simpl negb; cbv iota; [|reflexivity].
  cbn [run]. unfold answered.
  destruct (service h f fileContent) as [[response|]|[message|]]; try reflexivity.
  destruct (String.eqb response EmptyString); reflexivity.
Qed.

(** A run of [parseDocument], flattened: the result and the calls of
    each of its ways through. *)
Lemma parseDocument_run (h : Host) (f : File) :
  run h (fileParser.parseDocument apiKey JSON_parse f)
  = if negb (fileParser.isFileTypeSupported f) then
      (failure (fileParser.unsupportedForParsing f), [])
    else if size f >? fileParser.maxSizeForParsing then
      (failure (fileParser.tooLarge f), [])
    else
      match contents h f with
      | None => (failure "Failed to read file", [FileRead f])
      | Some content =>
          if negb (fileParser.keyAvailable apiKey) then
            (failure fileParser.keyNotConfigured, [FileRead f])
          else
            (answered JSON_parse (service h f (cut content)),
             [FileRead f; ServiceRequest f (cut content)])
      end.
Proof.
  unfold fileParser.parseDocument.
  destruct (fileParser.isFileTypeSupported f); simpl negb; cbv iota; [|reflexivity].
  destruct (size f >? fileParser.maxSizeForParsing); [reflexivity|].
  unfold fileParser.readFileAsText. cbn [bind run].
  destruct (contents h f) as [content|]; [|reflexivity].
  unfold cut.
  destruct (Z.of_nat (String.length content) >? fileParser.maxLength);
    cbn [bind]; rewrite parseFileWithGPT_run;
    destruct (fileParser.keyAvailable apiKey); reflexivity.
Qed.

End ParserRuns.

Lemma validate_success (payload : json) (result : FileParseResult) :
  fileParser.validate payload = Some result -> success result = true ->
  result = {| success := true; data := Some payload; error := None |}
  /\ wellFormed payload.
Proof.
  unfold fileParser.validate, wellFormed, truthyAt, confidenceKnown.
  destruct (get "documentName" payload) as [dn|]; [|discriminate].
  destruct (get "documentType" payload) as [dt|]; [|discriminate].
  destruct (get "confidence" payload) as [c|]; [|discriminate].
  destruct (truthy dn) eqn:Tdn; simpl;
    [|intros E; injection E as <-; discriminate].
  destruct (truthy dt) eqn:Tdt; simpl;
    [|intros E; injection E as <-; discriminate].
  destruct (truthy c) eqn:Tc; simpl;
    [|intros E; injection E as <-; discriminate].
  destruct (includes ["high"; "medium"; "low"] c) eqn:Hi; simpl;
    [|intros E; injection E as <-; discriminate].
  intros E _. injection E as <-. split; [reflexivity|].
  split; [exists dn; auto|]. split; [exists dt; auto|].
  destruct (includes_known _ _ Hi) as (level & -> & Hin).
  exists level. auto.
Qed.

Lemma validate_wellFormed (payload : json) :
  wellFormed payload ->
  fileParser.validate payload
  = Some {| success := true; data := Some payload; error := None |}.
Proof.
  intros ((dn & Hdn & Tdn) & (dt & Hdt & Tdt) & (level & Hc & Hin)).
  unfold fileParser.validate. rewrite Hdn, Hdt, Hc, Tdn, Tdt.
  assert (Hi : includes ["high"; "medium"; "low"] (Some (JString level)) = true).
  { unfold includes. apply existsb_eqb_In, Hin. }
  rewrite Hi.
  assert (Tc : truthy (Some (JString level)) = true).
  { destruct Hin as [<-|[<-|[<-|[]]]]; reflexivity. }
  rewrite Tc. reflexivity.
Qed.

Lemma request_only_when_ready_aux (apiKey : option string)
    (JSON_parse : string -> option json) (h : Host) (f f' : File) (sent : string) :
  In (ServiceRequest f' sent)
    (snd (run h (fileParser.parseDocument apiKey JSON_parse f))) ->
  exists content, contents h f = Some content /\ sent = cut content.
Proof.
  rewrite parseDocument_run.
  destruct (negb (fileParser.isFileTypeSupported f)); [intros []|].
  destruct (size f >? fileParser.maxSizeForParsing); [intros []|].
  destruct (contents h f) as [content|].
  - destruct (negb (fileParser.keyAvailable apiKey)); simpl snd.
    + intros [H|[]]. discriminate H.
    + intros [H|[H|[]]]; [discriminate H|]. injection H as _ <-.
      exists content. split; reflexivity.
  - intros [H|[]]. discriminate H.
Qed.

(** X1. A request goes to the service only for a file of a supported
    type, within the size limit, with the key configured and the file
    read; it is made for that file and carries the text read, cut. *)
Theorem request_only_when_ready :
  forall (apiKey : option string) (JSON_parse : string -> option json) (h : Host)
         (f f' : File) (sent : string),
    In (ServiceRequest f' sent)
      (snd (run h (fileParser.parseDocument apiKey JSON_parse f))) ->
    f' = f
    /\ fileParser.isFileTypeSupported f = true
    /\ size f <= fileParser.maxSizeForParsing
    /\ fileParser.keyAvailable apiKey = true
    /\ exists content, contents h f = Some content /\ sent = cut content.
Proof.
  intros apiKey JSON_parse h f f' sent. rewrite parseDocument_run.
  destruct (fileParser.isFileTypeSupported f); simpl negb; cbv iota;
    [|intros []].
  destruct (Z.gtb_spec (size f) fileParser.maxSizeForParsing) as [Hgt|Hle];
    [intros []|].
  destruct (contents h f) as [content|].
  - destruct (fileParser.keyAvailable apiKey); simpl negb; cbv iota; simpl snd.
    + intros [H|[H|[]]]; [discriminate H|]. injection H as <- <-.
      repeat split; try assumption. exists content. split; reflexivity.
    + intros [H|[]]. discriminate H.
  - intros [H|[]]. discriminate H.
Qed.

(** X2. [parseDocument] starts at most one read of the file and makes at
    most one call to the client's [chat.completions.create], the read
    first: it does not itself repeat a read or a call that failed. What
    the client does inside one call, its own retries of the HTTP request
    among it, is not counted here. *)
Theorem parse_reads_once_and_calls_once :
  forall (apiKey : option string) (JSON_parse : string -> option json) (h : Host)
         (f : File),
    snd (run h (fileParser.parseDocument apiKey JSON_parse f)) = []
    \/ snd (run h (fileParser.parseDocument apiKey JSON_parse f)) = [FileRead f]
    \/ exists sent,
         snd (run h (fileParser.parseDocument apiKey JSON_parse f))
         = [FileRead f; ServiceRequest f sent].
Proof.
  intros apiKey JSON_parse h f. rewrite parseDocument_run.
  destruct (negb (fileParser.isFileTypeSupported f)); [left; reflexivity|].
  destruct (size f >? fileParser.maxSizeForParsing); [left; reflexivity|].
  destruct (contents h f) as [content|]; [|right; left; reflexivity].
  destruct (negb (fileParser.keyAvailable apiKey)); [right; left; reflexivity|].
  right. right. exists (cut content). reflexivity.
Qed.

(** X3. The text sent to the service is never longer than 50000
    characters plus the 35 of the truncation marker, and a text of at
    most 50000 characters is sent as it is. *)
Theorem text_sent_is_bounded :
  forall (apiKey : option string) (JSON_parse : string -> option json) (h : Host)
         (f f' : File) (sent : string),
    In (ServiceRequest f' sent)
      (snd (run h (fileParser.parseDocument apiKey JSON_parse f))) ->
    Z.of_nat (String.length sent) <= 50035
    /\ forall content,
         contents h f = Some content ->
         Z.of_nat (String.length content) <= 50000 ->
         sent = content.
Proof.
  intros apiKey JSON_parse h f f' sent Hin.
  destruct (request_only_when_ready_aux apiKey JSON_parse h f f' sent Hin)
    as (content & Hc & ->).
  split; [apply (cut_bounded content)|].
  intros content' Hc' Hlen. rewrite Hc in Hc'. injection Hc' as <-.
  apply cut_short. exact Hlen.
Qed.

Lemma answered_shape (JSON_parse : string -> option json)
    (completion : settled (option string)) :
  (exists message, answered JSON_parse completion = failure message)
  \/ exists response payload,
       completion = Fulfilled (Some response)
       /\ JSON_parse response = Some payload
       /\ wellFormed payload
       /\ answered JSON_parse completion
          = {| success := true; data := Some payload; error := None |}.
Proof.
  unfold answered.
  destruct completion as [[response|]|[message|]]; try (left; eexists; reflexivity).
  destruct (String.eqb response EmptyString); [left; eexists; reflexivity|].
  unfold fileParser.parseResponse.
  destruct (JSON_parse response) as [payload|] eqn:Hp; [|left; eexists; reflexivity].
  destruct (fileParser.validate payload) as [result|] eqn:Hv;
    [|left; eexists; reflexivity].
  destruct (success result) eqn:Hs.
  - destruct (validate_success payload result Hv Hs) as [-> Hw].
    right. exists response, payload. auto.
  - left. revert Hv Hs. unfold fileParser.validate.
    destruct (get "documentName" payload); [|discriminate].
    destruct (get "documentType" payload); [|discriminate].
    destruct (get "confidence" payload) as [c|]; [|discriminate].
    destruct (negb _ || negb _ || negb _);
      [intros E _; injection E as <-; eexists; reflexivity|].
    destruct (negb (includes _ c));
      intros E Hs; injection E as <-; [eexists; reflexivity|discriminate Hs].
Qed.

(** X4. Whatever the host does, the result of a parse is of one of two
    kinds: a success with data and no error message, or a failure with
    an error message and no data. *)
Theorem result_is_success_or_failure :
  forall (apiKey : option string) (JSON_parse : string -> option json) (h : Host)
         (f : File),
    (success (fst (run h (fileParser.parseDocument apiKey JSON_parse f))) = true
     /\ data (fst (run h (fileParser.parseDocument apiKey JSON_parse f))) <> None
     /\ error (fst (run h (fileParser.parseDocument apiKey JSON_parse f))) = None)
    \/ (success (fst (run h (fileParser.parseDocument apiKey JSON_parse f))) = false
        /\ data (fst (run h (fileParser.parseDocument apiKey JSON_parse f))) = None
        /\ error (fst (run h (fileParser.parseDocument apiKey JSON_parse f))) <> None).
Proof.
  intros apiKey JSON_parse h f. rewrite parseDocument_run.
  assert (F : forall message,
             success (failure message) = false /\ data (failure message) = None
             /\ error (failure message) <> None).
  { intros message. repeat split. discriminate. }
  destruct (negb (fileParser.isFileTypeSupported f)); [right; apply F|].
  destruct (size f >? fileParser.maxSizeForParsing); [right; apply F|].
  destruct (contents h f) as [content|]; [|right; apply F].
  destruct (negb (fileParser.keyAvailable apiKey)); [right; apply F|].
  simpl fst.
  destruct (answered_shape JSON_parse (service h f (cut content)))
    as [(message & ->)|(response & payload & _ & _ & _ & ->)];
    [right; apply F|left].
  repeat split. discriminate.
Qed.

(** X5. A parse succeeds only on an answer of the service that
    [JSON.parse] reads as a payload with a name, a type and one of the
    three confidences; the data of the result is that payload, whole. *)
Theorem success_carries_checked_payload :
  forall (apiKey : option string) (JSON_parse : string -> option json) (h : Host)
         (f : File),
    success (fst (run h (fileParser.parseDocument apiKey JSON_parse f))) = true ->
    exists content response payload,
      contents h f = Some content
      /\ service h f (cut content) = Fulfilled (Some response)
      /\ JSON_parse response = Some payload
      /\ wellFormed payload
      /\ fst (run h (fileParser.parseDocument apiKey JSON_parse f))
         = {| success := true; data := Some payload; error := None |}.
Proof.
  intros apiKey JSON_parse h f. rewrite parseDocument_run.
  destruct (negb (fileParser.isFileTypeSupported f)); [discriminate|].
  destruct (size f >? fileParser.maxSizeForParsing); [discriminate|].
  destruct (contents h f) as [content|]; [|discriminate].
  destruct (negb (fileParser.keyAvailable apiKey)); [discriminate|].
  simpl fst.
  destruct (answered_shape JSON_parse (service h f (cut content)))
    as [(message & ->)|(response & payload & Hs & Hp & Hw & ->)];
    [discriminate|].
  intros _. exists content, response, payload. auto.
Qed.

(** X6. For a supported file within the size limit, with the key
    configured and the file read, an answer that [JSON.parse] reads as a
    payload with a name, a type and one of the three confidences makes
    the parse succeed with that payload as data, after one read and one
    request. *)
Theorem complete_answer_is_returned :
  forall (apiKey : option string) (JSON_parse : string -> option json) (h : Host)
         (f : File) (content response : string) (payload : json),
    fileParser.isFileTypeSupported f = true ->
    size f <= fileParser.maxSizeForParsing ->
    fileParser.keyAvailable apiKey = true ->
    contents h f = Some content ->
    service h f (cut content) = Fulfilled (Some response) ->
    response <> EmptyString ->
    JSON_parse response = Some payload ->
    wellFormed payload ->
    run h (fileParser.parseDocument apiKey JSON_parse f)
    = ({| success := true; data := Some payload; error := None |},
       [FileRead f; ServiceRequest f (cut content)]).
Proof.
  intros apiKey JSON_parse h f content response payload Ht Hs Hk Hc Ha Hne Hp Hw.
  rewrite parseDocument_run, Ht, Hc, Hk. simpl negb. cbv iota.
  destruct (Z.gtb_spec (size f) fileParser.maxSizeForParsing) as [Hgt|_]; [lia|].
  rewrite Ha. unfold answered.
  destruct (String.eqb_spec response EmptyString) as [E|_]; [contradiction|].
  unfold fileParser.parseResponse. rewrite Hp, (validate_wellFormed payload Hw).
  reflexivity.
Qed.

(** X7. For a supported file within the size limit: a file that cannot
    be read, a missing key, an error of the service, an empty answer and
    an answer that is no JSON each end the parse with their own failure;
    the first two before any request is made. *)
Theorem host_failures_are_reported :
  forall (apiKey : option string) (JSON_parse : string -> option json) (h : Host)
         (f : File),
    fileParser.isFileTypeSupported f = true ->
    size f <= fileParser.maxSizeForParsing ->
    (contents h f = None ->
     run h (fileParser.parseDocument apiKey JSON_parse f)
     = (failure "Failed to read file", [FileRead f]))
    /\ (forall content,
          contents h f = Some content ->
          (fileParser.keyAvailable apiKey = false ->
           run h (fileParser.parseDocument apiKey JSON_parse f)
           = (failure fileParser.keyNotConfigured, [FileRead f]))
          /\ (fileParser.keyAvailable apiKey = true ->
              (forall message,
                  service h f (cut content) = Rejected (Error message) ->
                  fst (run h (fileParser.parseDocument apiKey JSON_parse f))
                  = failure message)
              /\ (service h f (cut content) = Fulfilled None
                  \/ service h f (cut content) = Fulfilled (Some EmptyString) ->
                  fst (run h (fileParser.parseDocument apiKey JSON_parse f))
                  = failure fileParser.noResponse)
              /\ (forall response,
                     service h f (cut content) = Fulfilled (Some response) ->
                     response <> EmptyString ->
                     JSON_parse response = None ->
                     fst (run h (fileParser.parseDocument apiKey JSON_parse f))
                     = failure fileParser.failedToParse))).
Proof.
  intros apiKey JSON_parse h f Ht Hs. rewrite parseDocument_run, Ht.
  simpl negb. cbv iota.
  destruct (Z.gtb_spec (size f) fileParser.maxSizeForParsing) as [Hgt|_]; [lia|].
  split; [intros ->; reflexivity|].
  intros content ->. split; [intros ->; reflexivity|].
  intros ->. simpl negb. cbv iota. simpl fst. unfold answered.
  split; [intros message ->; reflexivity|].
  split; [intros [->| ->]; reflexivity|].
  intros response -> Hne Hp.
  destruct (String.eqb_spec response EmptyString) as [E|_]; [contradiction|].
  unfold fileParser.parseResponse. rewrite Hp. reflexivity.
Qed.

(** ** The image parser *)

(** X8. The image parser checks the type, the size and the key before it
    touches the file; it then reads the file at most once and asks the
    service at most once, and only after a read that gave the image. *)
Theorem image_parse_asks_once_when_ready :
  forall (apiKey : option string) (h : Host) (f : File),
    (snd (run h (imageParser.parseDocument apiKey f)) = []
     /\ (imageParser.isFileTypeSupported f = false
         \/ size f > imageParser.maxSize
         \/ fileParser.keyAvailable apiKey = false))
    \/ (snd (run h (imageParser.parseDocument apiKey f)) = [FileRead f]
        /\ dataURL h f = None)
    \/ (exists base64Image,
          dataURL h f = Some base64Image
          /\ snd (run h (imageParser.parseDocument apiKey f))
             = [FileRead f; ServiceRequest f base64Image]
          /\ imageParser.isFileTypeSupported f = true
          /\ size f <= imageParser.maxSize
          /\ fileParser.keyAvailable apiKey = true).
Proof.
  intros apiKey h f. unfold imageParser.parseDocument, imageParser.parseFileWithGPT.
  destruct (imageParser.isFileTypeSupported f); simpl negb; cbv iota;
    [|left; split; [reflexivity|left; reflexivity]].
  destruct (Z.gtb_spec (size f) imageParser.maxSize) as [Hgt|Hle];
    [left; split; [reflexivity|right; left; lia]|].
  destruct (fileParser.keyAvailable apiKey); simpl negb; cbv iota;
    [|left; split; [reflexivity|right; right; reflexivity]].
  right. cbn [run].
  destruct (dataURL h f) as [base64Image|]; [|left; split; reflexivity].
  right. exists base64Image. cbn [run].
  destruct (imageService h f base64Image) as [[parsed|]|e]; simpl; auto.
Qed.

(** * More of the store *)

Section MoreSortFacts.

Context {A : Type}.
Variable key : A -> number.

Lemma map_ascending (f : A -> A) (l : list A) :
  (forall x, key (f x) = key x) -> ascending key l -> ascending key (map f l).
Proof.
  intros Hf. unfold ascending.
  induction 1 as [|x l Hl IH Hhd]; simpl; constructor; [exact IH|].
  destruct Hhd as [|y ys Hxy]; simpl; constructor.
  unfold notAfter in *. rewrite !Hf. exact Hxy.
Qed.

Lemma filter_dated (p : A -> bool) (l : list A) :
  Forall (dated key) l -> Forall (dated key) (filter p l).
Proof.
  rewrite !Forall_forall. intros H x Hin. apply filter_In in Hin. apply H, Hin.
Qed.

Lemma filter_filter (p q : A -> bool) (l : list A) :
  filter p (filter q l) = filter q (filter p l).
Proof.
  induction l as [|x l IH]; [reflexivity|]. simpl.
  destruct (q x) eqn:Hq, (p x) eqn:Hp; simpl; rewrite ?Hq, ?Hp, IH; reflexivity.
Qed.

Lemma filter_permutation (p : A -> bool) (l l' : list A) :
  Permutation l l' -> Permutation (filter p l) (filter p l').
Proof.
  induction 1 as [|x l l' _ IH|x y l|l l' l'' _ IH1 _ IH2]; simpl.
  - constructor.
  - destruct (p x); [apply perm_skip|]; exact IH.
  - destruct (p x), (p y); try apply Permutation_refl. apply perm_swap.
  - eapply perm_trans; eassumption.
Qed.

(** Sorting and then dropping records is dropping them and then
    sorting. *)
Lemma filter_sort (p : A -> bool) (l : list A) :
  Forall (dated key) l ->
  filter p (sort (byKey key) l) = sort (byKey key) (filter p l).
Proof.
  intros D. symmetry. apply sort_unique; [apply filter_dated, D|].
  split; [apply filter_permutation, sort_permutation|].
  split; [apply filter_ascending, sort_ascending, D|].
  intros t. rewrite filter_filter, sort_stable. apply filter_filter.
Qed.

End MoreSortFacts.

Lemma spread_twice (doc : TravelDocument) (updates : PartialTravelDocument) :
  spread (spread doc updates) updates = spread doc updates.
Proof.
  unfold spread. simpl.
  destruct (id_opt updates), (file_opt updates), (displayName_opt updates),
    (customDateTime_opt updates), (uploadedAt_opt updates); reflexivity.
Qed.

Lemma map_fixed {A : Type} (f : A -> A) (l : list A) :
  (forall x, In x l -> f x = x) -> map f l = l.
Proof.
  induction l as [|x l IH]; intros H; [reflexivity|]. simpl.
  rewrite (H x (or_introl eq_refl)), IH; [reflexivity|].
  intros y Hy. apply H. right. exact Hy.
Qed.

(** X9. A file over 25MB, or of a type that is not one of the accepted
    ones, creates no record: [add] leaves the list as it was and shows
    one dialog with the reason of the validator. *)
Theorem rejected_upload_creates_no_record :
  forall (LocalTZA : Z -> bool -> Z) (toISOString : Z -> string)
         (parseISO : string -> Date) (documentId : string) (today now : Z)
         (f : File) (s : page.State),
    size f > page.maxFileSize \/ ~ In (type f) page.acceptedFileTypes ->
    exists reason,
      FileUpload.error
        (FileUpload.validateFile page.acceptedFileTypes page.maxFileSize f)
      = Some reason
      /\ page.add LocalTZA toISOString parseISO documentId today now f s
         = page.alert ("File validation failed: " ++ reason) s
      /\ page.list_ (page.add LocalTZA toISOString parseISO documentId today now f s)
         = page.list_ s
      /\ page.alerts (page.add LocalTZA toISOString parseISO documentId today now f s)
         = (page.alerts s ++ [("File validation failed: " ++ reason)%string])%list.
Proof.
  intros LocalTZA toISOString parseISO documentId today now f s H.
  unfold page.add, FileUpload.handleFile, FileUpload.validateFile.
  destruct (Z.gtb_spec (size f) page.maxFileSize) as [Hgt|Hle].
  - eexists. repeat split.
  - destruct H as [H|H]; [lia|].
    apply existsb_eqb_not_In in H. rewrite H.
    eexists. repeat split.
Qed.

(** X10. Applying the same update a second time changes nothing more: on
    a store of dated records, and with a timestamp that is a date,
    [update] is idempotent. *)
Theorem update_is_idempotent :
  forall (parseISO : string -> Date) (id0 : string)
         (updates : PartialTravelDocument) (s : page.State),
    Forall (dated (scheduledAt parseISO)) (page.list_ s) ->
    (forall t, customDateTime_opt updates = Some t -> isDate (parseISO t) = true) ->
    page.update parseISO id0 updates (snd (page.update parseISO id0 updates s))
    = page.update parseISO id0 updates s.
Proof.
  intros parseISO id0 updates s Hd Ht.
  remember (snd (page.update parseISO id0 updates s)) as s1 eqn:Es1.
  replace (page.update parseISO id0 updates s) with (Returned Undefined, s1)
    by (rewrite Es1; reflexivity).
  unfold page.update. simpl fst. f_equal.
  apply setDocuments_same. simpl snd.
  assert (Hdocs : page.documents s1
                  = sort (byKey (scheduledAt parseISO))
                      (map (fun doc => if String.eqb (id doc) id0
                                       then spread doc updates else doc)
                         (page.documents s))).
  { rewrite Es1. reflexivity. }
  set (f := fun doc => if String.eqb (id doc) id0 then spread doc updates else doc)
    in *.
  assert (Hw : wellTimed (fun _ _ => 0) (fun _ => EmptyString) parseISO
                 (page.Update id0 updates) = true).
  { simpl. destruct (customDateTime_opt updates) as [t|] eqn:E; [|reflexivity].
    apply Ht. reflexivity. }
  pose proof (changed_dated (fun _ _ => 0) (fun _ => EmptyString) parseISO
                (page.Update id0 updates) (page.documents s) Hw Hd) as Hc.
  simpl in Hc. fold f in Hc.
  assert (Hfix : map f (page.documents s1) = page.documents s1).
  { apply map_fixed. intros x Hx. rewrite Hdocs in Hx.
    apply (Permutation_in x (Permutation_sym
             (sort_permutation (scheduledAt parseISO) (map f (page.documents s)))))
      in Hx.
    apply in_map_iff in Hx. destruct Hx as (y & <- & _).
    unfold f. destruct (String.eqb (id y) id0) eqn:Ey.
    - destruct (String.eqb (id (spread y updates)) id0);
        [apply spread_twice|reflexivity].
    - rewrite Ey. reflexivity. }
  change (page.byCustomDateTime parseISO) with (byKey (scheduledAt parseISO)).
  fold f. rewrite Hfix, Hdocs.
  apply sort_of_ascending, sort_ascending, Hc.
Qed.

(** X11. Typing in the name input never moves a record: on a list in
    order, [handleNameChange] leaves every record in its place, the
    record of the input under its new name. *)
Theorem name_change_moves_nothing :
  forall (parseISO : string -> Date) (doc : TravelDocument) (value : string)
         (prev : list TravelDocument),
    ascending (scheduledAt parseISO) prev ->
    page.handleNameChange parseISO doc value prev
    = (Returned Undefined,
       map (fun d => if String.eqb (id d) (id doc)
                     then {| id := id d;
                             file := file d;
                             displayName := value;
                             customDateTime := customDateTime d;
                             uploadedAt := uploadedAt d |}
                     else d) prev).
Proof.
  intros parseISO doc value prev Hs.
  unfold page.handleNameChange, page.updateDocument. f_equal.
  change (page.byCustomDateTime parseISO) with (byKey (scheduledAt parseISO)).
  rewrite sort_of_ascending.
  - apply map_ext. intros d. destruct (String.eqb (id d) (id doc)); reflexivity.
  - apply map_ascending; [|exact Hs].
    intros d. destruct (String.eqb (id d) (id doc)); reflexivity.
Qed.

(** X12. An upload followed by the removal of the id it was given leaves
    the list as it was before the upload, whether the file was accepted
    or not. *)
Theorem upload_then_remove_restores_list :
  forall (LocalTZA : Z -> bool -> Z) (toISOString : Z -> string)
         (parseISO : string -> Date) (documentId : string) (today now : Z)
         (f : File) (s : page.State),
    inOrder parseISO (page.list_ s) ->
    ~ In documentId (map id (page.list_ s)) ->
    wellTimed LocalTZA toISOString parseISO (page.Add documentId today now f) = true ->
    page.list_
      (snd (page.remove documentId
              (page.add LocalTZA toISOString parseISO documentId today now f s)))
    = page.list_ s.
Proof.
  intros LocalTZA toISOString parseISO documentId today now f s [Hd Hs] Hid Hw.
  unfold page.list_ in *. simpl.
  change (page.add LocalTZA toISOString parseISO documentId today now f s)
    with (page.apply LocalTZA toISOString parseISO s (page.Add documentId today now f)).
  rewrite documents_apply.
  pose proof (changed_dated LocalTZA toISOString parseISO
                (page.Add documentId today now f) (page.documents s) Hw Hd) as Hc.
  destruct (created LocalTZA toISOString (page.Add documentId today now f))
    as [|d l] eqn:Ec; [apply filter_others, Hid|].
  rewrite filter_sort by exact Hc.
  unfold changed. rewrite Ec, filter_app, (filter_others documentId _ Hid).
  assert (E : filter (fun doc => negb (String.eqb (id doc) documentId)) (d :: l) = []).
  { unfold created in Ec.
    destruct (FileUpload.isValid _); [|discriminate].
    destruct (page.todayAt10AM LocalTZA today); [|discriminate].
    injection Ec as <- <-. simpl. rewrite String.eqb_refl. reflexivity. }
  rewrite E, app_nil_r. apply sort_of_ascending, Hs.
Qed.

(** ** The date input *)

Lemma fields_of_MakeDate (q h m s x : Z) :
  0 <= h < 24 -> 0 <= m < 60 -> 0 <= s < 60 -> 0 <= x < 1000 ->
  Day (MakeDate q (MakeTime h m s x)) = q
  /\ HourFromTime (MakeDate q (MakeTime h m s x)) = h
  /\ MinFromTime (MakeDate q (MakeTime h m s x)) = m
  /\ SecFromTime (MakeDate q (MakeTime h m s x)) = s
  /\ msFromTime (MakeDate q (MakeTime h m s x)) = x.
Proof.
  intros Hh Hm Hs Hx.
  unfold Day, HourFromTime, MinFromTime, SecFromTime, msFromTime, MakeDate,
    MakeTime, msPerDay, msPerHour, msPerMinute, msPerSecond.
  repeat split.
  - symmetry. apply Z.div_unique with (r := h * 3600000 + m * 60000 + s * 1000 + x); lia.
  - replace (q * 86400000 + (h * 3600000 + m * 60000 + s * 1000 + x))
      with ((q * 24 + h) * 3600000 + (m * 60000 + s * 1000 + x)) by ring.
    rewrite Z.div_add_l by lia.
    rewrite (Z.div_small (m * 60000 + s * 1000 + x)) by lia.
    rewrite Z.add_0_r, Z.add_comm, Z.mod_add by lia. apply Z.mod_small. lia.
  - replace (q * 86400000 + (h * 3600000 + m * 60000 + s * 1000 + x))
      with (((q * 24 + h) * 60 + m) * 60000 + (s * 1000 + x)) by ring.
    rewrite Z.div_add_l by lia.
    rewrite (Z.div_small (s * 1000 + x)) by lia.
    rewrite Z.add_0_r, Z.add_comm, Z.mod_add by lia. apply Z.mod_small. lia.
  - replace (q * 86400000 + (h * 3600000 + m * 60000 + s * 1000 + x))
      with ((((q * 24 + h) * 60 + m) * 60 + s) * 1000 + x) by ring.
    rewrite Z.div_add_l by lia.
    rewrite (Z.div_small x) by lia.
    rewrite Z.add_0_r, Z.add_comm, Z.mod_add by lia. apply Z.mod_small. lia.
  - replace (q * 86400000 + (h * 3600000 + m * 60000 + s * 1000 + x))
      with (x + (((q * 24 + h) * 60 + m) * 60 + s) * 1000) by ring.
    rewrite Z.mod_add by lia. apply Z.mod_small. lia.
Qed.

Lemma HourFromTime_range (t : Z) : 0 <= HourFromTime t < 24.
Proof. unfold HourFromTime. apply Z.mod_pos_bound. lia. Qed.

Lemma MinFromTime_range (t : Z) : 0 <= MinFromTime t < 60.
Proof. unfold MinFromTime. apply Z.mod_pos_bound. lia. Qed.

Lemma SecFromTime_range (t : Z) : 0 <= SecFromTime t < 60.
Proof. unfold SecFromTime. apply Z.mod_pos_bound. lia. Qed.

Lemma msFromTime_range (t : Z) : 0 <= msFromTime t < 1000.
Proof. unfold msFromTime, msPerSecond. apply Z.mod_pos_bound. lia. Qed.

(** X13. Picking a day in the date input reschedules the record to that
    day at the hour and minute it had; the seconds and milliseconds are
    those of the picked date. It holds on a host where the two local
    times the computation goes through exist. *)
Theorem date_change_keeps_hour_and_minute :
  forall (LocalTZA : Z -> bool -> Z) (toISOString : Z -> string)
         (parseISO : string -> Date) (doc : TravelDocument) (value : string)
         (prev : list TravelDocument) (current picked : Z),
    parseISO (customDateTime doc) = Some current ->
    parseISO value = Some picked ->
    onTheClock LocalTZA
      (MakeDate (Day (LocalTime LocalTZA picked))
         (MakeTime (HourFromTime (LocalTime LocalTZA picked))
            (MinFromTime (LocalTime LocalTZA current))
            (SecFromTime (LocalTime LocalTZA picked))
            (msFromTime (LocalTime LocalTZA picked)))) ->
    onTheClock LocalTZA
      (MakeDate (Day (LocalTime LocalTZA picked))
         (MakeTime (HourFromTime (LocalTime LocalTZA current))
            (MinFromTime (LocalTime LocalTZA current))
            (SecFromTime (LocalTime LocalTZA picked))
            (msFromTime (LocalTime LocalTZA picked)))) ->
    exists updated : Z,
      page.handleDateChange LocalTZA toISOString parseISO doc value prev
      = page.updateDocument parseISO (id doc)
          (just_customDateTime (toISOString updated)) prev
      /\ Day (LocalTime LocalTZA updated) = Day (LocalTime LocalTZA picked)
      /\ HourFromTime (LocalTime LocalTZA updated)
         = HourFromTime (LocalTime LocalTZA current)
      /\ MinFromTime (LocalTime LocalTZA updated)
         = MinFromTime (LocalTime LocalTZA current)
      /\ SecFromTime (LocalTime LocalTZA updated)
         = SecFromTime (LocalTime LocalTZA picked)
      /\ msFromTime (LocalTime LocalTZA updated)
         = msFromTime (LocalTime LocalTZA picked).
Proof.
  intros LocalTZA toISOString parseISO doc value prev current picked Hc Hp.
  set (c := LocalTime LocalTZA current). set (n := LocalTime LocalTZA picked).
  intros [H1 R1] [H2 R2].
  pose proof (HourFromTime_range c) as Hhc. pose proof (HourFromTime_range n) as Hhn.
  pose proof (MinFromTime_range c) as Hmc.
  pose proof (SecFromTime_range n) as Hsn. pose proof (msFromTime_range n) as Hxn.
  destruct (fields_of_MakeDate (Day n) (HourFromTime n) (MinFromTime c)
              (SecFromTime n) (msFromTime n) Hhn Hmc Hsn Hxn)
    as (D1 & _ & M1 & S1 & X1).
  destruct (fields_of_MakeDate (Day n) (HourFromTime c) (MinFromTime c)
              (SecFromTime n) (msFromTime n) Hhc Hmc Hsn Hxn)
    as (D2 & Ho2 & M2 & S2 & X2).
  exists (UTC LocalTZA
            (MakeDate (Day n)
               (MakeTime (HourFromTime c) (MinFromTime c) (SecFromTime n)
                  (msFromTime n)))).
  rewrite H2. split; [|auto].
  unfold page.handleDateChange. rewrite Hc, Hp.
  unfold Date_getMinutes, Date_getHours, setMinutes_number, setHours_number,
    setMinutes, setHours, Date_setMinutes.
  fold c. fold n. rewrite (TimeClip_in_range _ R1).
  unfold Date_setHours. rewrite H1, D1, M1, S1, X1.
  rewrite (TimeClip_in_range _ R2). reflexivity.
Qed.

(** X14. When the date input is cleared, or holds no date, or the record
    itself holds none, the handler throws before it updates anything:
    the list stays as it was. *)
Theorem date_change_of_no_date_throws :
  forall (LocalTZA : Z -> bool -> Z) (toISOString : Z -> string)
         (parseISO : string -> Date) (doc : TravelDocument) (value : string)
         (prev : list TravelDocument),
    parseISO value = NaN \/ parseISO (customDateTime doc) = NaN ->
    signalsError
      (fst (page.handleDateChange LocalTZA toISOString parseISO doc value prev))
    /\ snd (page.handleDateChange LocalTZA toISOString parseISO doc value prev)
       = prev.
Proof.
  intros LocalTZA toISOString parseISO doc value prev H.
  assert (E : page.handleDateChange LocalTZA toISOString parseISO doc value prev
              = (Thrown "RangeError: Invalid time value", prev)).
  { unfold page.handleDateChange.
    destruct H as [H|H]; rewrite H.
    - destruct (parseISO (customDateTime doc)); reflexivity.
    - reflexivity. }
  rewrite E. split; [eexists; reflexivity|reflexivity].
Qed.

(** ** Rescheduling and parsing *)

Lemma scheduledAt_spread (parseISO : string -> Date) (doc : TravelDocument)
    (t : string) :
  scheduledAt parseISO (spread doc (just_customDateTime t)) = parseISO t.
Proof. reflexivity. Qed.

(** X15. In a store that is in order, whose records all have dates and
    no two of them the same id, a record rescheduled to a date before
    those of all the others moves to the front of the list, and the
    others keep their order. *)
Theorem rescheduled_before_all_moves_to_front :
  forall (parseISO : string -> Date) (id0 t : string) (moment : Z)
         (s : page.State) (doc : TravelDocument),
    inOrder parseISO (page.list_ s) ->
    NoDup (map id (page.list_ s)) ->
    In doc (page.list_ s) ->
    id doc = id0 ->
    parseISO t = Some moment ->
    (forall other, In other (page.list_ s) -> id other <> id0 ->
       exists m, scheduledAt parseISO other = Some m /\ moment < m) ->
    page.list_ (snd (page.update parseISO id0 (just_customDateTime t) s))
    = spread doc (just_customDateTime t)
        :: filter (fun d => negb (String.eqb (id d) id0)) (page.list_ s).
Proof.
  intros parseISO id0 t moment s doc [Hd Hs] Hnd Hin Hid Ht Hlater.
  unfold page.list_ in *. simpl.
  set (key := scheduledAt parseISO) in *.
  set (u := just_customDateTime t).
  apply in_split in Hin. destruct Hin as (before & after & Hdocs).
  rewrite Hdocs in *. rewrite map_app in Hnd. simpl in Hnd.
  pose proof (NoDup_remove_2 _ _ _ Hnd) as Hnot. rewrite Hid in Hnot.
  assert (Hb : ~ In id0 (map id before)).
  { intros H. apply Hnot, in_or_app. left. exact H. }
  assert (Ha : ~ In id0 (map id after)).
  { intros H. apply Hnot, in_or_app. right. exact H. }
  rewrite map_app. simpl map.
  rewrite (map_others id0 u before Hb), (map_others id0 u after Ha).
  rewrite (proj2 (String.eqb_eq (id doc) id0) Hid).
  rewrite filter_app. simpl filter.
  rewrite (proj2 (String.eqb_eq (id doc) id0) Hid). simpl negb. cbv iota.
  rewrite (filter_others id0 before Hb), (filter_others id0 after Ha).
  assert (Hrest : forall other, In other (before ++ after)%list ->
                    exists m, key other = Some m /\ moment < m).
  { intros other Ho.
    assert (Hino : In other (before ++ doc :: after)%list).
    { apply in_app_or in Ho. apply in_or_app. simpl. tauto. }
    apply Hlater; [exact Hino|].
    intros E. apply in_app_or in Ho. destruct Ho as [Ho|Ho].
    - apply Hb. rewrite <- E. apply in_map, Ho.
    - apply Ha. rewrite <- E. apply in_map, Ho. }
  assert (Hkey : key (spread doc u) = Some moment) by exact Ht.
  assert (Hrs : ascending key (before ++ after)).
  { replace (before ++ after)%list
      with (filter (fun d => negb (String.eqb (id d) id0)) (before ++ doc :: after)%list).
    - apply filter_ascending, Hs.
    - rewrite filter_app. simpl.
      rewrite (proj2 (String.eqb_eq (id doc) id0) Hid). simpl.
      rewrite (filter_others id0 before Hb), (filter_others id0 after Ha).
      reflexivity. }
  apply (sort_unique key).
  - apply Forall_app. apply Forall_app in Hd. destruct Hd as [Hdb Hda].
    split; [exact Hdb|]. inversion Hda; subst. constructor; [|assumption].
    unfold dated. rewrite Hkey. discriminate.
  - split; [apply Permutation_sym, Permutation_middle|]. split.
    + constructor; [exact Hrs|].
      destruct (before ++ after)%list as [|x l] eqn:E; constructor.
      destruct (Hrest x (or_introl eq_refl)) as (m & Hm & Hlt).
      unfold notAfter. rewrite Hkey, Hm. lia.
    + intros t'. rewrite filter_app. simpl.
      destruct (at_time key t' (spread doc u)) eqn:Eat; [|rewrite filter_app; reflexivity].
      apply at_time_key in Eat. rewrite Hkey in Eat. injection Eat as <-.
      assert (Hnone : forall l, (forall other, In other l ->
                         exists m, key other = Some m /\ moment < m) ->
                       filter (at_time key moment) l = []).
      { induction l as [|x l IH]; intros Hl; [reflexivity|]. simpl.
        destruct (Hl x (or_introl eq_refl)) as (m & Hm & Hlt).
        unfold at_time at 1. rewrite Hm.
        destruct (Z.eqb_spec m moment); [lia|].
        apply IH. intros other Ho. apply Hl. right. exact Ho. }
      rewrite (Hnone before), filter_app, (Hnone before); [reflexivity| |];
        intros other Ho; apply Hrest, in_or_app; left; exact Ho.
Qed.

Lemma updatesOf_object (payload : json) (updates : PartialTravelDocument) :
  page.updatesOf payload = Some updates -> truthy (Some payload) = true.
Proof.
  unfold page.updatesOf. destruct payload; simpl; try discriminate. reflexivity.
Qed.

(** X16. A result that arrives after its record was removed changes no
    record: [parseDocumentData] leaves the list it finds, sorted once
    more (so exactly as it was when it was in order), shows no dialog
    and clears the parsing flag. *)
Theorem late_result_is_dropped :
  forall (parseISO : string -> Date) (doc : TravelDocument)
         (result : FileParseResult) (payload : json)
         (updates : PartialTravelDocument) (s : page.State),
    success result = true ->
    data result = Some payload ->
    page.updatesOf payload = Some updates ->
    exists s',
      page.parseDocumentData_settled parseISO doc (Fulfilled result)
        (snd (page.remove (id doc) s)) = Some s'
      /\ page.list_ s'
         = sort (page.byCustomDateTime parseISO)
             (page.list_ (snd (page.remove (id doc) s)))
      /\ Permutation (page.list_ (snd (page.remove (id doc) s))) (page.list_ s')
      /\ (ascending (scheduledAt parseISO) (page.list_ s) ->
          page.list_ s' = page.list_ (snd (page.remove (id doc) s)))
      /\ page.alerts s' = page.alerts s
      /\ page.parsingId s' = None.
Proof.
  intros parseISO doc result payload updates s Hok Hdata Hu.
  unfold page.parseDocumentData_settled.
  rewrite Hdata, Hok, (updatesOf_object payload updates Hu), Hu. simpl andb.
  cbv iota. eexists. split; [reflexivity|].
  unfold page.list_ in *. simpl.
  set (rest := filter (fun d => negb (String.eqb (id d) (id doc))) (page.documents s)).
  assert (Hgone : ~ In (id doc) (map id rest)).
  { intros H. apply in_map_iff in H. destruct H as (d & E & Hin).
    apply filter_In in Hin. destruct Hin as [_ Hne].
    rewrite E, String.eqb_refl in Hne. discriminate. }
  rewrite (map_others (id doc) updates rest Hgone).
  split; [reflexivity|]. split; [apply (sort_permutation (scheduledAt parseISO))|].
  split; [|split; reflexivity].
  intros Hs. apply (sort_of_ascending (scheduledAt parseISO)).
  apply filter_ascending, Hs.
Qed.

(** X17. A successful parse whose payload names the document renames the
    record to that name and, when the payload has a timestamp,
    reschedules it to it; the id, the file and the time of upload of the
    record stay, no dialog is shown and the parsing flag is cleared. *)
Theorem successful_parse_updates_the_record :
  forall (parseISO : string -> Date) (doc stored : TravelDocument)
         (result : FileParseResult) (payload : json) (documentName : string)
         (timestamp : option string) (s : page.State),
    success result = true ->
    data result = Some payload ->
    get "documentName" payload = Some (Some (JString documentName)) ->
    get "timestamp" payload = Some (option_map JString timestamp) ->
    In stored (page.list_ s) ->
    id stored = id doc ->
    exists s',
      page.parseDocumentData_settled parseISO doc (Fulfilled result) s = Some s'
      /\ In {| id := id stored;
               file := file stored;
               displayName := documentName;
               customDateTime :=
                 match timestamp with
                 | Some t => if String.eqb t EmptyString then customDateTime stored else t
                 | None => customDateTime stored
                 end;
               uploadedAt := uploadedAt stored |}
            (page.list_ s')
      /\ List.length (page.list_ s') = List.length (page.list_ s)
      /\ page.alerts s' = page.alerts s
      /\ page.parsingId s' = None.
Proof.
  intros parseISO doc stored result payload documentName timestamp s
    Hok Hdata Hname Hstamp Hin Hid.
  set (updates :=
         match timestamp with
         | Some t => if String.eqb t EmptyString then just_displayName documentName
                     else mkPartial None None (Some documentName) (Some t) None
         | None => just_displayName documentName
         end).
  assert (Hu : page.updatesOf payload = Some updates).
  { unfold page.updatesOf, updates. rewrite Hname, Hstamp.
    destruct timestamp as [t|]; simpl; [|reflexivity].
    destruct (String.eqb t EmptyString); reflexivity. }
  unfold page.parseDocumentData_settled.
  rewrite Hdata, Hok, (updatesOf_object payload updates Hu), Hu. simpl andb.
  cbv iota. eexists. split; [reflexivity|].
  unfold page.list_ in *. simpl.
  pose proof (sort_permutation (scheduledAt parseISO)
                (map (fun d => if String.eqb (id d) (id doc)
                               then spread d updates else d)
                   (page.documents s))) as Hperm.
  split; [|split; [|split; reflexivity]].
  - eapply Permutation_in; [exact Hperm|].
    apply in_map_iff. exists stored. split; [|exact Hin].
    rewrite (proj2 (String.eqb_eq (id stored) (id doc)) Hid).
    unfold updates. destruct timestamp as [t|]; [|reflexivity].
    destruct (String.eqb t EmptyString); reflexivity.
  - etransitivity; [symmetry; exact (Permutation_length Hperm)|apply length_map].
Qed.

(** X18. With ids that are generated once each and updates that leave
    ids alone, as those of the page do, no two records of the store
    share an id after any operation of a sequence. *)
Theorem ids_stay_unique :
  forall (LocalTZA : Z -> bool -> Z) (toISOString : Z -> string)
         (parseISO : string -> Date) (ops : list page.operation),
    forallb keepsId ops = true ->
    NoDup (flat_map generated ops) ->
    Forall (fun s => NoDup (map id (page.list_ s)))
      (page.history LocalTZA toISOString parseISO page.initial ops).
Proof.
  intros LocalTZA toISOString parseISO ops Hk Hg.
  apply history_unique_ids; assumption.
Qed.

(** ** Uploads of one day, and what of them can be parsed *)

(** X19. The default of a new record depends on the local day of the
    upload only: two uploads on the same local day get the same
    [scheduledAt], whatever the time of day. *)
Theorem uploads_of_one_day_share_the_default :
  forall (LocalTZA : Z -> bool -> Z) (first second : Z),
    Day (LocalTime LocalTZA first) = Day (LocalTime LocalTZA second) ->
    onTheClock LocalTZA (midnightOf LocalTZA first) ->
    onTheClock LocalTZA (tenOf LocalTZA first) ->
    page.todayAt10AM LocalTZA first = page.todayAt10AM LocalTZA second
    /\ page.todayAt10AM LocalTZA first <> NaN.
Proof.
  intros LocalTZA first second Hday Hm Ht.
  assert (Em : midnightOf LocalTZA second = midnightOf LocalTZA first).
  { unfold midnightOf. rewrite Hday. reflexivity. }
  assert (Et : tenOf LocalTZA second = tenOf LocalTZA first).
  { unfold tenOf. rewrite Hday. reflexivity. }
  rewrite (todayAt10AM_is_ten LocalTZA first Hm Ht).
  rewrite (todayAt10AM_is_ten LocalTZA second); [|rewrite Em; exact Hm|rewrite Et; exact Ht].
  rewrite Et. split; [reflexivity|intros H; inversion H].
Qed.

(** X20. Of the files the page accepts for upload, the parser takes only
    PDF and Word documents: an uploaded image is turned away by
    [parseDocument] before any read or request. *)
Theorem uploaded_images_are_not_parsed :
  forall (apiKey : option string) (JSON_parse : string -> option json) (h : Host)
         (f : File),
    FileUpload.isValid
      (FileUpload.validateFile page.acceptedFileTypes page.maxFileSize f) = true ->
    (fileParser.isFileTypeSupported f = true ->
     In (type f)
       [ "application/pdf"; "application/msword";
         "application/vnd.openxmlformats-officedocument.wordprocessingml.document" ])
    /\ (In (type f) ["image/jpeg"; "image/png"; "image/jpg"] ->
        run h (fileParser.parseDocument apiKey JSON_parse f)
        = (failure (fileParser.unsupportedForParsing f), [])).
Proof.
  intros apiKey JSON_parse h f Hv.
  assert (Hin : In (type f) page.acceptedFileTypes).
  { revert Hv. unfold FileUpload.validateFile.
    destruct (size f >? page.maxFileSize); [discriminate|].
    change (FileUpload.acceptsAll page.acceptedFileTypes) with false.
    destruct (existsb (String.eqb (type f)) page.acceptedFileTypes) eqn:E;
      [intros _; apply existsb_eqb_In, E|simpl; discriminate]. }
  split.
  - intros Hs. unfold fileParser.isFileTypeSupported in Hs.
    apply existsb_eqb_In in Hs.
    simpl in Hin. destruct Hin as [E|[E|[E|[E|[E|[E|[]]]]]]];
      rewrite <- E in *; simpl; auto;
      exfalso; simpl in Hs; intuition discriminate.
  - intros Hi. rewrite parseDocument_run.
    assert (Hn : fileParser.isFileTypeSupported f = false).
    { unfold fileParser.isFileTypeSupported.
      simpl in Hi. destruct Hi as [E|[E|[E|[]]]]; rewrite <- E; reflexivity. }
    rewrite Hn. reflexivity.
Qed.

(** * More theorems at work *)

(** A successful parse on [Sample.host2], and what it makes of
    [Sample.one]. *)
Example parse_of_complete_answer :
  option_map
    (fun s => map (fun doc => (id doc, displayName doc, customDateTime doc))
                (page.list_ s))
    (page.parseDocumentData Iso8601.parseISO (Some "sk-key") Sample.JSON_parse2
       Sample.host2 Sample.record Sample.two)
  = Some [ ("id-1", "Visa", "2024-12-25T09:00:00.000Z");
           ("id-2", "visa.png", "2025-01-16T04:30:00.000Z") ].
Proof. vm_compute. reflexivity. Qed.

Lemma request_only_when_ready_example :
  In (ServiceRequest Sample.ticket "Visa, Singapore")
    (snd (run Sample.host
            (fileParser.parseDocument (Some "sk-key") Sample.JSON_parse Sample.ticket)))
  /\ fileParser.isFileTypeSupported Sample.ticket = true
  /\ fileParser.keyAvailable (Some "sk-key") = true.
Proof.
  assert (H : In (ServiceRequest Sample.ticket "Visa, Singapore")
                (snd (run Sample.host
                        (fileParser.parseDocument (Some "sk-key") Sample.JSON_parse
                           Sample.ticket)))).
  { vm_compute. right. left. reflexivity. }
  split; [exact H|].
  destruct (request_only_when_ready (Some "sk-key") Sample.JSON_parse Sample.host
              Sample.ticket Sample.ticket "Visa, Singapore" H)
    as (_ & Ht & _ & Hk & _).
  split; assumption.
Defined.

Lemma text_sent_is_bounded_example :
  In (ServiceRequest Sample.ticket "Visa, Singapore")
    (snd (run Sample.host
            (fileParser.parseDocument (Some "sk-key") Sample.JSON_parse Sample.ticket)))
  /\ Z.of_nat (String.length "Visa, Singapore") <= 50035.
Proof.
  assert (H : In (ServiceRequest Sample.ticket "Visa, Singapore")
                (snd (run Sample.host
                        (fileParser.parseDocument (Some "sk-key") Sample.JSON_parse
                           Sample.ticket)))).
  { vm_compute. right. left. reflexivity. }
  split; [exact H|].
  exact (proj1 (text_sent_is_bounded (Some "sk-key") Sample.JSON_parse Sample.host
                  Sample.ticket Sample.ticket "Visa, Singapore" H)).
Defined.

Lemma success_carries_checked_payload_example :
  success (fst (run Sample.host2
                  (fileParser.parseDocument (Some "sk-key") Sample.JSON_parse2
                     Sample.ticket))) = true
  /\ exists content response payload,
       contents Sample.host2 Sample.ticket = Some content
       /\ service Sample.host2 Sample.ticket (cut content) = Fulfilled (Some response)
       /\ Sample.JSON_parse2 response = Some payload
       /\ wellFormed payload
       /\ fst (run Sample.host2
                 (fileParser.parseDocument (Some "sk-key") Sample.JSON_parse2
                    Sample.ticket))
          = {| success := true; data := Some payload; error := None |}.
Proof.
  assert (H : success (fst (run Sample.host2
                              (fileParser.parseDocument (Some "sk-key")
                                 Sample.JSON_parse2 Sample.ticket))) = true)
    by (vm_compute; reflexivity).
  split; [exact H|].
  exact (success_carries_checked_payload (Some "sk-key") Sample.JSON_parse2
           Sample.host2 Sample.ticket H).
Defined.

Lemma complete_answer_is_returned_example :
  wellFormed Sample.completePayload
  /\ run Sample.host2
       (fileParser.parseDocument (Some "sk-key") Sample.JSON_parse2 Sample.ticket)
     = ({| success := true; data := Some Sample.completePayload; error := None |},
        [FileRead Sample.ticket; ServiceRequest Sample.ticket (cut "Visa, Singapore")]).
Proof.
  assert (Hw : wellFormed Sample.completePayload).
  { split; [|split].
    - exists (Some (JString "Visa")). split; reflexivity.
    - exists (Some (JString "Visa")). split; reflexivity.
    - exists "high". split; [reflexivity|left; reflexivity]. }
  split; [exact Hw|].
  apply (complete_answer_is_returned (Some "sk-key") Sample.JSON_parse2 Sample.host2
           Sample.ticket "Visa, Singapore" Sample.complete Sample.completePayload).
  - reflexivity.
  - vm_compute. discriminate.
  - reflexivity.
  - reflexivity.
  - reflexivity.
  - vm_compute. discriminate.
  - vm_compute. reflexivity.
  - exact Hw.
Defined.

Lemma host_failures_are_reported_example :
  fileParser.isFileTypeSupported Sample.ticket = true
  /\ size Sample.ticket <= fileParser.maxSizeForParsing
  /\ run Sample.host
       (fileParser.parseDocument None Sample.JSON_parse Sample.ticket)
     = (failure fileParser.keyNotConfigured, [FileRead Sample.ticket]).
Proof.
  assert (Ht : fileParser.isFileTypeSupported Sample.ticket = true) by reflexivity.
  assert (Hs : size Sample.ticket <= fileParser.maxSizeForParsing)
    by (vm_compute; discriminate).
  split; [exact Ht|]. split; [exact Hs|].
  exact (proj1 (proj2 (host_failures_are_reported None Sample.JSON_parse Sample.host
                         Sample.ticket Ht Hs) "Visa, Singapore" eq_refl) eq_refl).
Defined.

Lemma rejected_upload_creates_no_record_example :
  ~ In (type Sample.notes) page.acceptedFileTypes
  /\ page.list_ (page.add Iso8601.LocalTZA Iso8601.toISOString Iso8601.parseISO
                   "id-3" Sample.morning Sample.morning Sample.notes Sample.one)
     = page.list_ Sample.one.
Proof.
  assert (Hn : ~ In (type Sample.notes) page.acceptedFileTypes).
  { simpl. intuition discriminate. }
  split; [exact Hn|].
  destruct (rejected_upload_creates_no_record Iso8601.LocalTZA Iso8601.toISOString
              Iso8601.parseISO "id-3" Sample.morning Sample.morning Sample.notes
              Sample.one (or_intror Hn)) as (reason & _ & _ & Hl & _).
  exact Hl.
Defined.

Ltac all_dated :=
  repeat (apply Forall_cons; [intros H; vm_compute in H; discriminate H|]);
  apply Forall_nil.

Ltac pair_ascending :=
  apply Sorted_cons;
  [apply Sorted_cons; [apply Sorted_nil|apply HdRel_nil]
  |apply HdRel_cons; vm_compute; discriminate].

Lemma update_is_idempotent_example :
  page.update Iso8601.parseISO "id-1" (just_customDateTime "2025-02-01T09:00:00.000Z")
    (snd (page.update Iso8601.parseISO "id-1"
            (just_customDateTime "2025-02-01T09:00:00.000Z") Sample.two))
  = page.update Iso8601.parseISO "id-1"
      (just_customDateTime "2025-02-01T09:00:00.000Z") Sample.two.
Proof.
  apply (update_is_idempotent Iso8601.parseISO "id-1"
           (just_customDateTime "2025-02-01T09:00:00.000Z") Sample.two).
  - all_dated.
  - intros t H. injection H as <-. vm_compute. reflexivity.
Defined.

Lemma name_change_moves_nothing_example :
  map displayName
    (snd (page.handleNameChange Iso8601.parseISO Sample.later "Visa"
            (page.list_ Sample.two)))
  = ["ticket.pdf"; "Visa"].
Proof.
  rewrite (name_change_moves_nothing Iso8601.parseISO Sample.later "Visa"
             (page.list_ Sample.two)).
  - reflexivity.
  - pair_ascending.
Defined.

Lemma upload_then_remove_restores_list_example :
  page.list_
    (snd (page.remove "id-3"
            (page.add Iso8601.LocalTZA Iso8601.toISOString Iso8601.parseISO "id-3"
               Sample.morning Sample.morning Sample.visa Sample.two)))
  = page.list_ Sample.two.
Proof.
  apply (upload_then_remove_restores_list Iso8601.LocalTZA Iso8601.toISOString
           Iso8601.parseISO "id-3" Sample.morning Sample.morning Sample.visa
           Sample.two).
  - split.
    + all_dated.
    + pair_ascending.
  - simpl. intuition discriminate.
  - vm_compute. reflexivity.
Defined.

(** [Sample.record], at 10:00 in India on 15 January, moved to
    1 February with the date input: 10:00 there, 04:30 UTC. *)
Lemma date_change_keeps_hour_and_minute_example :
  exists updated : Z,
    page.handleDateChange Iso8601.LocalTZA Iso8601.toISOString Iso8601.parseISO
      Sample.record "2025-01-31T18:30:00.000Z" (page.list_ Sample.two)
    = page.updateDocument Iso8601.parseISO (id Sample.record)
        (just_customDateTime (Iso8601.toISOString updated)) (page.list_ Sample.two)
    /\ Day (LocalTime Iso8601.LocalTZA updated)
       = Day (LocalTime Iso8601.LocalTZA 1738348200000)
    /\ HourFromTime (LocalTime Iso8601.LocalTZA updated)
       = HourFromTime (LocalTime Iso8601.LocalTZA 1736915400000)
    /\ MinFromTime (LocalTime Iso8601.LocalTZA updated)
       = MinFromTime (LocalTime Iso8601.LocalTZA 1736915400000)
    /\ SecFromTime (LocalTime Iso8601.LocalTZA updated)
       = SecFromTime (LocalTime Iso8601.LocalTZA 1738348200000)
    /\ msFromTime (LocalTime Iso8601.LocalTZA updated)
       = msFromTime (LocalTime Iso8601.LocalTZA 1738348200000).
Proof.
  apply (date_change_keeps_hour_and_minute Iso8601.LocalTZA Iso8601.toISOString
           Iso8601.parseISO Sample.record "2025-01-31T18:30:00.000Z"
           (page.list_ Sample.two) 1736915400000 1738348200000).
  - vm_compute. reflexivity.
  - vm_compute. reflexivity.
  - split; [vm_compute; reflexivity|vm_compute; discriminate].
  - split; [vm_compute; reflexivity|vm_compute; discriminate].
Defined.

Example date_change_result :
  map (fun doc => (id doc, customDateTime doc))
    (snd (page.handleDateChange Iso8601.LocalTZA Iso8601.toISOString Iso8601.parseISO
            Sample.record "2025-01-31T18:30:00.000Z" (page.list_ Sample.two)))
  = [ ("id-2", "2025-01-16T04:30:00.000Z"); ("id-1", "2025-02-01T04:30:00.000Z") ].
Proof. vm_compute. reflexivity. Qed.

Lemma date_change_of_no_date_throws_example :
  Iso8601.parseISO EmptyString = NaN
  /\ snd (page.handleDateChange Iso8601.LocalTZA Iso8601.toISOString Iso8601.parseISO
            Sample.record EmptyString (page.list_ Sample.two))
     = page.list_ Sample.two.
Proof.
  assert (H : Iso8601.parseISO EmptyString = NaN) by reflexivity.
  split; [exact H|].
  exact (proj2 (date_change_of_no_date_throws Iso8601.LocalTZA Iso8601.toISOString
                  Iso8601.parseISO Sample.record EmptyString (page.list_ Sample.two)
                  (or_introl H))).
Defined.

Lemma rescheduled_before_all_moves_to_front_example :
  map id
    (page.list_ (snd (page.update Iso8601.parseISO "id-2"
                        (just_customDateTime "2024-12-25T09:00:00.000Z") Sample.two)))
  = ["id-2"; "id-1"].
Proof.
  rewrite (rescheduled_before_all_moves_to_front Iso8601.parseISO "id-2"
             "2024-12-25T09:00:00.000Z" 1735117200000 Sample.two Sample.later).
  - reflexivity.
  - split; [all_dated|pair_ascending].
  - simpl. constructor; [intros [H|[]]; discriminate H|].
    constructor; [intros []|constructor].
  - right. left. reflexivity.
  - reflexivity.
  - vm_compute. reflexivity.
  - intros other [<-|[<-|[]]] Hne.
    + exists 1736915400000. split; [vm_compute; reflexivity|reflexivity].
    + exfalso. apply Hne. reflexivity.
Defined.

(** The late result for a record removed from a list that is the wrong
    way round: the two records left stay, put in order. *)
Lemma late_result_is_dropped_example :
  exists s',
    page.parseDocumentData_settled Iso8601.parseISO Sample.third
      (Fulfilled {| success := true;
                    data := Some Sample.completePayload;
                    error := None |})
      (snd (page.remove (id Sample.third) Sample.disordered3)) = Some s'
    /\ page.list_ s'
       = sort (page.byCustomDateTime Iso8601.parseISO)
           (page.list_ (snd (page.remove (id Sample.third) Sample.disordered3)))
    /\ Permutation (page.list_ (snd (page.remove (id Sample.third) Sample.disordered3)))
         (page.list_ s')
    /\ (ascending (scheduledAt Iso8601.parseISO) (page.list_ Sample.disordered3) ->
        page.list_ s'
        = page.list_ (snd (page.remove (id Sample.third) Sample.disordered3)))
    /\ page.alerts s' = page.alerts Sample.disordered3
    /\ page.parsingId s' = None.
Proof.
  apply (late_result_is_dropped Iso8601.parseISO Sample.third
           {| success := true; data := Some Sample.completePayload; error := None |}
           Sample.completePayload
           (mkPartial None None (Some "Visa") (Some "2024-12-25T09:00:00.000Z") None)
           Sample.disordered3).
  - reflexivity.
  - reflexivity.
  - reflexivity.
Defined.

Example late_result_sorts :
  option_map (fun s => map id (page.list_ s))
    (page.parseDocumentData_settled Iso8601.parseISO Sample.third
       (Fulfilled {| success := true;
                     data := Some Sample.completePayload;
                     error := None |})
       (snd (page.remove (id Sample.third) Sample.disordered3)))
  = Some ["id-1"; "id-2"].
Proof. vm_compute. reflexivity. Qed.

Lemma successful_parse_updates_the_record_example :
  exists s',
    page.parseDocumentData_settled Iso8601.parseISO Sample.record
      (Fulfilled {| success := true;
                    data := Some Sample.completePayload;
                    error := None |})
      Sample.two = Some s'
    /\ In {| id := "id-1";
             file := Sample.ticket;
             displayName := "Visa";
             customDateTime := "2024-12-25T09:00:00.000Z";
             uploadedAt := Sample.morning |}
          (page.list_ s')
    /\ List.length (page.list_ s') = List.length (page.list_ Sample.two)
    /\ page.alerts s' = page.alerts Sample.two
    /\ page.parsingId s' = None.
Proof.
  apply (successful_parse_updates_the_record Iso8601.parseISO Sample.record
           Sample.record
           {| success := true; data := Some Sample.completePayload; error := None |}
           Sample.completePayload "Visa" (Some "2024-12-25T09:00:00.000Z") Sample.two).
  - reflexivity.
  - reflexivity.
  - reflexivity.
  - reflexivity.
  - left. reflexivity.
  - reflexivity.
Defined.

Lemma ids_stay_unique_example :
  Forall (fun s => NoDup (map id (page.list_ s)))
    (page.history Iso8601.LocalTZA Iso8601.toISOString Iso8601.parseISO
       page.initial Sample.session).
Proof.
  apply (ids_stay_unique Iso8601.LocalTZA Iso8601.toISOString Iso8601.parseISO
           Sample.session).
  - reflexivity.
  - simpl. constructor; [intros [H|[]]; discriminate H|].
    constructor; [intros []|constructor].
Defined.

(** 08:23 and 17:00 UTC of 15 January are both 15 January in India. *)
Lemma uploads_of_one_day_share_the_default_example :
  page.todayAt10AM Iso8601.LocalTZA Sample.morning
  = page.todayAt10AM Iso8601.LocalTZA 1736960400000.
Proof.
  apply (uploads_of_one_day_share_the_default Iso8601.LocalTZA Sample.morning
           1736960400000).
  - vm_compute. reflexivity.
  - split; [vm_compute; reflexivity|vm_compute; discriminate].
  - split; [vm_compute; reflexivity|vm_compute; discriminate].
Defined.

Lemma uploaded_images_are_not_parsed_example :
  FileUpload.isValid
    (FileUpload.validateFile page.acceptedFileTypes page.maxFileSize Sample.visa)
  = true
  /\ run Sample.host2
       (fileParser.parseDocument (Some "sk-key") Sample.JSON_parse2 Sample.visa)
     = (failure (fileParser.unsupportedForParsing Sample.visa), []).
Proof.
  assert (Hv : FileUpload.isValid
                 (FileUpload.validateFile page.acceptedFileTypes page.maxFileSize
                    Sample.visa) = true) by reflexivity.
  split; [exact Hv|].
  apply (proj2 (uploaded_images_are_not_parsed (Some "sk-key") Sample.JSON_parse2
                  Sample.host2 Sample.visa Hv)).
  right. left. reflexivity.
Defined.

(** * The store when every timestamp is a date *)

(** X21. For every sequence of adds, updates and removes that brings only
    dates into the store, after each operation every record has a date
    and [list()] is in non-decreasing order of them. In such a store an
    update of the [scheduledAt] of a record to a date [t] leaves the
    list in order, with that record in it under the timestamp [t] and
    its other fields as they were, every record of that id under [t],
    and the list equal to whatever a full stable re-sort of the updated
    collection gives. *)
Theorem dated_store_stays_in_order :
  forall (LocalTZA : Z -> bool -> Z) (toISOString : Z -> string)
         (parseISO : string -> Date) (ops : list page.operation),
    forallb (wellTimed LocalTZA toISOString parseISO) ops = true ->
    Forall (fun s => inOrder parseISO (page.list_ s))
      (page.history LocalTZA toISOString parseISO page.initial ops)
    /\ forall (s : page.State) (id0 t : string) (doc : TravelDocument),
         inOrder parseISO (page.list_ s) ->
         isDate (parseISO t) = true ->
         In doc (page.list_ s) ->
         id doc = id0 ->
         inOrder parseISO
           (page.list_ (snd (page.update parseISO id0 (just_customDateTime t) s)))
         /\ In {| id := id doc;
                  file := file doc;
                  displayName := displayName doc;
                  customDateTime := t;
                  uploadedAt := uploadedAt doc |}
              (page.list_ (snd (page.update parseISO id0 (just_customDateTime t) s)))
         /\ (forall d,
               In d (page.list_
                       (snd (page.update parseISO id0 (just_customDateTime t) s))) ->
               id d = id0 -> customDateTime d = t)
         /\ (forall l',
               resorted (scheduledAt parseISO)
                 (map (fun d => if String.eqb (id d) id0
                                then {| id := id d;
                                        file := file d;
                                        displayName := displayName d;
                                        customDateTime := t;
                                        uploadedAt := uploadedAt d |}
                                else d) (page.list_ s)) l' ->
               page.list_ (snd (page.update parseISO id0 (just_customDateTime t) s))
               = l').
Proof.
  intros LocalTZA toISOString parseISO ops Hw.
  split.
  { apply history_inOrder; [exact Hw|apply initial_inOrder]. }
  intros s id0 t doc Hs Ht Hin Hid. unfold page.list_ in *.
  set (f := fun d => if String.eqb (id d) id0
                     then spread d (just_customDateTime t) else d).
  assert (Hafter : page.documents
                     (snd (page.update parseISO id0 (just_customDateTime t) s))
                   = sort (byKey (scheduledAt parseISO)) (map f (page.documents s)))
    by reflexivity.
  assert (Hperm : Permutation (map f (page.documents s))
                    (page.documents
                       (snd (page.update parseISO id0 (just_customDateTime t) s)))).
  { rewrite Hafter. apply sort_permutation. }
  assert (Hd : Forall (dated (scheduledAt parseISO)) (map f (page.documents s))).
  { apply (changed_dated LocalTZA toISOString parseISO
             (page.Update id0 (just_customDateTime t)) (page.documents s));
      [exact Ht|apply Hs]. }
  split; [|split; [|split]].
  - exact (apply_inOrder LocalTZA toISOString parseISO s
             (page.Update id0 (just_customDateTime t)) Ht Hs).
  - eapply Permutation_in; [exact Hperm|].
    apply in_map_iff. exists doc. split; [|exact Hin].
    unfold f. rewrite (proj2 (String.eqb_eq (id doc) id0) Hid). reflexivity.
  - intros d Hd' Hidd.
    apply (Permutation_in d (Permutation_sym Hperm)) in Hd'.
    apply in_map_iff in Hd'. destruct Hd' as (x & <- & _).
    unfold f in *. destruct (String.eqb_spec (id x) id0) as [E|E];
      [reflexivity|contradiction].
  - intros l' Hr. rewrite Hafter.
    apply (sort_unique (scheduledAt parseISO)); [exact Hd|].
    replace (map f (page.documents s))
      with (map (fun d => if String.eqb (id d) id0
                          then {| id := id d;
                                  file := file d;
                                  displayName := displayName d;
                                  customDateTime := t;
                                  uploadedAt := uploadedAt d |}
                          else d) (page.documents s)); [exact Hr|].
    apply map_ext. intros d. unfold f.
    destruct (String.eqb (id d) id0); reflexivity.
Qed.

(** The session of [Sample] brings only dates, and [Sample.two] is in
    order: its second record moved to 25 December stands in the list,
    which is in order. *)
Lemma dated_store_stays_in_order_example :
  forallb (wellTimed Iso8601.LocalTZA Iso8601.toISOString Iso8601.parseISO)
    Sample.session = true
  /\ Forall (fun s => inOrder Iso8601.parseISO (page.list_ s))
       (page.history Iso8601.LocalTZA Iso8601.toISOString Iso8601.parseISO
          page.initial Sample.session)
  /\ inOrder Iso8601.parseISO (page.list_ Sample.two)
  /\ inOrder Iso8601.parseISO
       (page.list_ (snd (page.update Iso8601.parseISO "id-2"
                           (just_customDateTime "2024-12-25T09:00:00.000Z")
                           Sample.two)))
  /\ In {| id := "id-2";
           file := Sample.visa;
           displayName := "visa.png";
           customDateTime := "2024-12-25T09:00:00.000Z";
           uploadedAt := Sample.morning + 1 |}
       (page.list_ (snd (page.update Iso8601.parseISO "id-2"
                           (just_customDateTime "2024-12-25T09:00:00.000Z")
                           Sample.two))).
Proof.
  assert (Hw : forallb (wellTimed Iso8601.LocalTZA Iso8601.toISOString
                          Iso8601.parseISO) Sample.session = true)
    by (vm_compute; reflexivity).
  assert (Hs : inOrder Iso8601.parseISO (page.list_ Sample.two))
    by (split; [all_dated|pair_ascending]).
  assert (Ht : isDate (Iso8601.parseISO "2024-12-25T09:00:00.000Z") = true)
    by (vm_compute; reflexivity).
  assert (Hin : In Sample.later (page.list_ Sample.two))
    by (right; left; reflexivity).
  destruct (dated_store_stays_in_order Iso8601.LocalTZA Iso8601.toISOString
              Iso8601.parseISO Sample.session Hw) as [Hall Hupd].
  destruct (Hupd Sample.two "id-2" "2024-12-25T09:00:00.000Z" Sample.later
              Hs Ht Hin eq_refl) as (Ho & Hi & _ & _).
  split; [exact Hw|]. split; [exact Hall|]. split; [exact Hs|].
  split; [exact Ho|exact Hi].
Defined.
